(** * PT-NEWS_EXTRACTOR: the search sessions and the request validators

    A shallow embedding of
      - [app/apis/v1/cm/models/cm_search.py]       (module [CM]),
      - [app/apis/v1/publico/models/publico_search.py] (module [Publico]),
      - [app/apis/v1/publico/decorators.py]        (module [Decorators]),
    followed by the properties of the retrieval engine proved about them.

    Python exceptions are values of [Py.exn]; a computation that may raise
    returns [Py.res].  The network, lxml, the JSON decoder and the helpers of
    [app.core.common] are not part of these modules: they are the fields of
    the classes [CM.Env], [Publico.Env] and [Decorators.Env]. *)

From Stdlib Require Import ZArith List String Ascii Bool Lia Sorted.
From stdpp Require Import base list strings gmap pretty.

Open Scope Z_scope.

(** ** Python prelude

    A Python [str] is held as the UTF-8 bytes of its text.  Searching for,
    splitting at and replacing a separator that is ASCII (every one the
    code uses is) gives on the bytes what Python gives on the characters,
    since no byte of a longer UTF-8 sequence is an ASCII byte.  The case
    mappings [str.lower] and [str.capitalize] depend on the Unicode tables
    of the interpreter and are fields of the environments. *)

Module Py.

Inductive exn : Type :=
| IndexError
| KeyError
| AttributeError
| TypeError
| ValueError
| RequestError (msg : string)
| OtherError (name : string).

Inductive res (A : Type) : Type :=
| Ok (a : A)
| Raise (e : exn).
Arguments Ok {A} a.
Arguments Raise {A} e.

Definition bind {A B} (c : res A) (k : A -> res B) : res B :=
  match c with
  | Ok a => k a
  | Raise e => Raise e
  end.

Definition is_ok {A} (c : res A) : bool :=
  match c with Ok _ => true | Raise _ => false end.

(** [l[i]] for a non-negative literal index. *)
Definition getitem {A} (l : list A) (i : nat) : res A :=
  match l !! i with
  | Some a => Ok a
  | None => Raise IndexError
  end.

(** [d[k]] on a dict. *)
Definition dict_getitem (d : gmap string string) (k : string) : res string :=
  match d !! k with
  | Some v => Ok v
  | None => Raise KeyError
  end.

(** [sub in s] on strings. *)
Fixpoint str_in (sub s : string) : bool :=
  if String.prefix sub s then true
  else match s with
       | EmptyString => false
       | String _ s' => str_in sub s'
       end.

(** [s.split(sep)] for a non-empty separator (Python raises ValueError on
    the empty one; every call site passes a literal).  [skip] counts the
    characters of a matched separator still to be dropped, [cur] is the
    piece being read. *)
Fixpoint split_go (sep : string) (skip : nat) (cur s : string) : list string :=
  match s with
  | EmptyString => [cur]
  | String c s' =>
      match skip with
      | S k => split_go sep k cur s'
      | O =>
          if String.prefix sep s
          then cur :: split_go sep (String.length sep - 1) EmptyString s'
          else split_go sep 0 (cur +:+ String c EmptyString) s'
      end
  end.

Definition split (sep s : string) : list string :=
  split_go sep 0 EmptyString s.

(** [sep.join(l)] *)
Definition join (sep : string) (l : list string) : string :=
  String.concat sep l.

(** [s.replace(old, new)], for a non-empty [old]. *)
Definition replace (old new s : string) : string :=
  join new (split old s).

(** [str(n)] on an int. *)
Definition str (n : Z) : string := pretty n.

(** Naive [datetime.datetime] values, as microseconds since
    0001-01-01T00:00:00, and [datetime.date] values, as proleptic
    Gregorian ordinals ([date.toordinal()]).  Both are compared the way
    Python compares them. *)
Abbreviation datetime := Z (only parsing).
Abbreviation date := Z (only parsing).

(** [dt.date()] *)
Definition datetime_date (dt : datetime) : date := dt / 86400000000 + 1.



Definition CRLF : string := String "013" (String "010" EmptyString).

(** The part of [s] in front of the first occurrence of [sep]. *)
Fixpoint before (sep s : string) : string :=
  if String.prefix sep s then EmptyString
  else match s with
       | EmptyString => EmptyString
       | String c s' => String c (before sep s')
       end.

(** What follows that part: empty, or starting with [sep]. *)
Fixpoint from (sep s : string) : string :=
  if String.prefix sep s then s
  else match s with
       | EmptyString => EmptyString
       | String _ s' => from sep s'
       end.

End Py.

Notation "x <- c ;; k" := (Py.bind c (fun x => k))
  (at level 100, c at next level, right associativity).

(** ** cm_search.py *)

Module CM.
Import Py.

(** An lxml element, as far as the code looks at it: its [.text] (None for
    an element without text) and its [.attrib] dict. *)
Record Element : Type := {
  el_text : option string;
  attrib : gmap string string
}.

(** One [<article>] of a listing page: the results of the three relative
    XPath queries [search] runs on it. *)
Record Article : Type := {
  h2_a : list Element;            (* .//h2/a *)
  span_dateTime : list Element;   (* .//span[@class="dateTime"] *)
  span_lead : list Element        (* .//span[@class="lead"] *)
}.

(** A parsed document: the results of the XPath queries run on the tree. *)
Record Tree : Type := {
  articles : list Article;        (* //article *)
  span_autor : list Element;      (* //span[@class='autor']//span *)
  centro_h1 : list Element;       (* //div[@class='centro']//section//h1 *)
  texto_container : list string   (* //div[@class='texto_container paywall']//text()[...] *)
}.

Record Response : Type := {
  status_code : Z;
  response_text : string
}.

(** What [authors] can be bound to on line 125: the text of an element
    (a str or None) or the list of elements itself. *)
Inductive pyval : Type :=
| PyNone
| PyStr (s : string)
| PyElements (els : list Element).

Definition text_val (o : option string) : pyval :=
  match o with
  | Some s => PyStr s
  | None => PyNone
  end.

(** The arguments [CMNews(...)] is built from, in order. *)
Record CMNews : Type := {
  title : string;
  description : option string;
  url : string;
  rubric : string;
  date : datetime;
  authors : list pyval;
  is_opinion : bool;
  text : string
}.

(** What [search] reaches outside the module. *)
Class Env : Type := {
  CM_USER : option string;                       (* os.getenv("CM_USER") *)
  CM_PW : option string;                         (* os.getenv("CM_PW") *)
  requests_get : string -> string;               (* requests.get(url).text *)
  html_fromstring : string -> res Tree;          (* lxml.html.fromstring *)
  datetime_from_string : string -> res datetime; (* app.core.common.helpers *)
  send_post_then_get_html_string :
    string -> option string * option string -> string -> Response;
  normalize_str : option string -> res string;   (* app.core.common.helpers *)
  unescape : string -> string;                   (* html.unescape *)
  capitalize : string -> string                  (* str.capitalize *)
}.

Record CMTopicSearch : Type := {
  topic : string;
  start_date : datetime;
  end_date : datetime;
  found_news : list CMNews
}.

Definition login_url : string :=
  "https://aminhaconta.xl.pt/LoginNonio?returnUrl=https%3a%2f%2fwww.cmjornal.pt%2f&isLayer=1&siteHost=www.cmjornal.pt".

Section Search.
Context `{Env}.

Definition login_payload : option string * option string := (CM_USER, CM_PW).

(** [CMTopicSearch.__init__] *)
Definition init (topic_ start_ end_ : string) : res CMTopicSearch :=
  s <- datetime_from_string start_ ;;
  e <- datetime_from_string end_ ;;
  Ok {| topic := topic_; start_date := s; end_date := e; found_news := [] |}.

(** [self.found_news.append(news)] *)
Definition append (news : CMNews) (self : CMTopicSearch) : CMTopicSearch :=
  {| topic := topic self; start_date := start_date self;
     end_date := end_date self; found_news := found_news self ++ [news] |}.

(** The f-string of line 83. *)
Definition listing_url (self : CMTopicSearch) (index : Z) : string :=
  "https://www.cmjornal.pt/mais-sobre/loadmore?friendlyUrl=mais-sobre&urlRefParameters=?ref=Mais%20Sobre_BlocoMaisSobre&contentStartIndex="
  +:+ str index +:+ "&searchKeywords=" +:+ replace " " "-" (topic self).

(** Lines 92-96: the extracted [data-name], made absolute, without its
    [?ref] tail. *)
Definition normalize_url (url0 : string) : res string :=
  match url0 with
  | EmptyString => Raise IndexError                      (* url[0] *)
  | String c _ =>
      let url1 := if Ascii.eqb c "/" then "https://www.cmjornal.pt" +:+ url0 else url0 in
      getitem (split "?ref" url1) 0
  end.

(** The rule of the spec for an item URL: an origin-relative URL gets the
    origin of the source in front, any other URL is taken as it is. *)
Definition absolute (url0 : string) : string :=
  if String.prefix "/" url0 then "https://www.cmjornal.pt" +:+ url0 else url0.

Definition denylist : list string := ["interativa"; "multimedia"; "perguntas"].

(** Line 98: [any(x in url for x in [...])] *)
Definition denylisted (url_ : string) : bool :=
  existsb (fun x => str_in x url_) denylist.

(** Lines 124-125. *)
Definition authors_of (spans : list Element) : pyval :=
  match spans with
  | first :: _ => text_val (el_text first)
  | [] => PyElements spans
  end.

(** The body of the [for article in ...] loop, lines 92-146.
    [Ok None] is a [continue]; [Ok (Some news)] reaches the append of
    line 148. *)
Definition article_news (self : CMTopicSearch) (article : Article)
  : res (option CMNews) :=
  a <- getitem (h2_a article) 0 ;;
  url0 <- dict_getitem (attrib a) "data-name" ;;
  url_ <- normalize_url url0 ;;
  if denylisted url_ then Ok None else
  d <- getitem (span_dateTime article) 0 ;;
  dtext <- match el_text d with
           | Some t => Ok t
           | None => Raise AttributeError                (* None.replace *)
           end ;;
  news_date <- datetime_from_string (replace "|" "" dtext) ;;
  if negb ((start_date self <? news_date) && (news_date <? end_date self))
  then Ok None else
  l <- getitem (span_lead article) 0 ;;
  let description_ := el_text l in
  let response := send_post_then_get_html_string login_url login_payload url_ in
  if negb (status_code response =? 200) then Ok None else
  tree <- html_fromstring (response_text response) ;;
  let is_opinion_ := str_in "opiniao" url_ in
  section <- getitem (split "/" url_) 3 ;;
  let rubric_ := capitalize section in
  let authors_ := authors_of (span_autor tree) in
  h <- getitem (centro_h1 tree) 0 ;;
  title_ <- normalize_str (el_text h) ;;
  text0 <- normalize_str (Some (join " " (texto_container tree))) ;;
  let text1 := unescape text0 in
  text2 <- getitem (split "Para aceder a todos os Exclusivos CM" text1) 0 ;;
  Ok (Some {| title := title_; description := description_; url := url_;
              rubric := rubric_; date := news_date; authors := [authors_];
              is_opinion := is_opinion_; text := text2 |}).

(** The [for] loop of lines 90-148 over the articles of one page; an
    exception leaves [self] as it was when it was raised. *)
Fixpoint for_articles (arts : list Article) (self : CMTopicSearch)
  : res unit * CMTopicSearch :=
  match arts with
  | [] => (Ok tt, self)
  | article :: rest =>
      match article_news self article with
      | Raise e => (Raise e, self)
      | Ok None => for_articles rest self
      | Ok (Some news) => for_articles rest (append news self)
      end
  end.

(** The locals of [search]. *)
Record locals : Type := { index : Z; full_stop : bool }.

(** How the [while True] loop is left. *)
Inductive exit : Type :=
| EmptyPage (html_string : string)   (* line 87 *)
| FullStop.                          (* line 152 *)

Inductive step_result : Type :=
| Next (l : locals) (self : CMTopicSearch)
| Break (why : exit) (self : CMTopicSearch)
| Raised (e : exn) (self : CMTopicSearch).

(** One iteration of the [while True] loop, lines 82-153. *)
Definition step (l : locals) (self : CMTopicSearch) : step_result :=
  let html_string := requests_get (listing_url self (index l)) in
  if String.eqb html_string CRLF || String.eqb html_string "" then
    Break (EmptyPage html_string) self
  else
    match html_fromstring html_string with
    | Raise e => Raised e self
    | Ok tree =>
        match for_articles (articles tree) self with
        | (Raise e, self') => Raised e self'
        | (Ok _, self') =>
            if full_stop l then Break FullStop self'
            else Next {| index := index l + 6; full_stop := full_stop l |} self'
        end
    end.

Inductive outcome : Type :=
| Returned (why : exit) (news : list CMNews)   (* return self.found_news *)
| Failed (e : exn) (self : CMTopicSearch)
| Running (l : locals) (self : CMTopicSearch). (* the loop has not ended yet *)

Fixpoint loop (fuel : nat) (l : locals) (self : CMTopicSearch) : outcome :=
  match fuel with
  | O => Running l self
  | S fuel' =>
      match step l self with
      | Next l' self' => loop fuel' l' self'
      | Break why self' => Returned why (found_news self')
      | Raised e self' => Failed e self'
      end
  end.

(** [CMTopicSearch.search], cut after [fuel] iterations of the loop. *)
Definition search (fuel : nat) (self : CMTopicSearch) : outcome :=
  loop fuel {| index := 0; full_stop := false |} self.

(** [self.found_news] where the run stands. *)
Definition news_of (o : outcome) : list CMNews :=
  match o with
  | Returned _ news => news
  | Failed _ self | Running _ self => found_news self
  end.

End Search.
End CM.

(** ** publico_search.py *)

Module Publico.
Import Py.

(** One element of the JSON array of a listing page: a dict. *)
Abbreviation Item := (gmap string string) (only parsing).

(** Modelled from the spec: the class PublicoNews of publico_news.py, which
    is not among the modules embedded here.  It is the Article Record of the
    data model: title, summary, canonical URL, section, publication
    timestamp, authors, opinion flag and body text. *)
Record PublicoNews : Type := {
  title : string;
  description : option string;
  url : string;
  rubric : string;
  date : datetime;
  authors : list string;
  is_opinion : bool;
  text : option string
}.

(** Modelled from the spec: PublicoNews.__eq__, which [not in] calls.  The
    URL is the identity key of a record: two records with the same URL are
    the same article. *)
Definition news_eqb (a b : PublicoNews) : bool := String.eqb (url a) (url b).

(** [news_object in found_news] *)
Definition contains (news_object : PublicoNews) (l : list PublicoNews) : bool :=
  existsb (news_eqb news_object) l.

(** [self.found_news] after [news_object] went through the test of
    [add_news]: appended when no record has its URL. *)
Definition insert_if_absent (n : PublicoNews) (l : list PublicoNews) : list PublicoNews :=
  if negb (contains n l) then l ++ [n] else l.

(** The number of records of [l] whose URL is [u]. *)
Definition count_url (u : string) (l : list PublicoNews) : nat :=
  length (filter (fun m => String.eqb (url m) u = true) l).

(** What the searches reach outside the module. *)
Class Env : Type := {
  requests_get : string -> string;                 (* requests.get(url).text *)
  json_loads : string -> res (list Item);          (* json.loads *)
  datetime_from_string : string -> res datetime;   (* app.core.common.helpers *)
  parse_date : option string -> res Py.date;          (* PublicoNews.parse_date *)
  deserialize_news : Item -> res (option PublicoNews);
                      (* PublicoNews.deserialize_news: [Ok None] is a result
                         that is not a PublicoNews instance *)
  validate_url : string -> bool;                   (* PublicoNews.validate_url *)
  build_from_url : string -> res PublicoNews;      (* PublicoNews.build_from_url *)
  strftime_dmY : Py.date -> string;                   (* d.strftime("%d-%m-%Y") *)
  lower : string -> string                            (* str.lower *)
}.

(** What a run does, in order: the listing pages it requests and the items
    its loop body is entered with. *)
Inductive event : Type :=
| Get (url_ : string)
| Eval (item : Item).

Inductive outcome (S : Type) : Type :=
| Finished (self : S) (trace : list event)
| Failed (e : exn) (self : S) (trace : list event)
| Running (self : S) (trace : list event).   (* the loop has not ended yet *)
Arguments Finished {S} self trace.
Arguments Failed {S} e self trace.
Arguments Running {S} self trace.

Definition trace_of {S} (o : outcome S) : list event :=
  match o with
  | Finished _ t | Failed _ _ t | Running _ t => t
  end.

Definition self_of {S} (o : outcome S) : S :=
  match o with
  | Finished s _ | Failed _ s _ | Running s _ => s
  end.

(** *** class PublicoURLSearch *)

Module PublicoURLSearch.
Section Methods.
Context `{Env}.

Record self : Type := { found_news : list PublicoNews }.

Definition init : self := {| found_news := [] |}.

Definition add_news (s : self) (url_ : string) : res self :=
  let _ := validate_url url_ in
  news_object <- build_from_url url_ ;;
  if negb (contains news_object (found_news s))
  then Ok {| found_news := found_news s ++ [news_object] |}
  else Ok s.

End Methods.
End PublicoURLSearch.

(** *** class PublicoTopicSearch *)

Module PublicoTopicSearch.
Section Methods.
Context `{Env}.

Record self : Type := {
  search_topic : string;
  base_api_url : string;
  start_date : Py.date;
  end_date : Py.date;
  page_number : Z;
  found_news : list PublicoNews
}.

(** [PublicoTopicSearch.__init__], through [PublicoAPISearch.__init__]. *)
Definition init (search_topic_ start_ end_ : string) : res self :=
  s <- datetime_from_string start_ ;;
  e <- datetime_from_string end_ ;;
  Ok {| search_topic := search_topic_;
        base_api_url := "https://www.publico.pt/api/list/";
        start_date := datetime_date s; end_date := datetime_date e;
        page_number := 1; found_news := [] |}.

Definition set_found_news (l : list PublicoNews) (s : self) : self :=
  {| search_topic := search_topic s; base_api_url := base_api_url s;
     start_date := start_date s; end_date := end_date s;
     page_number := page_number s; found_news := l |}.

Definition set_page_number (n : Z) (s : self) : self :=
  {| search_topic := search_topic s; base_api_url := base_api_url s;
     start_date := start_date s; end_date := end_date s;
     page_number := n; found_news := found_news s |}.

Definition add_news (s : self) (data : Item) : res self :=
  news_object <- deserialize_news data ;;
  match news_object with
  | Some n =>
      if negb (contains n (found_news s))
      then Ok (set_found_news (found_news s ++ [n]) s)
      else Ok s
  | None => Ok s
  end.

Definition api_url (s : self) : string :=
  base_api_url s +:+ lower (replace " " "-" (search_topic s))
  +:+ "?page=" +:+ str (page_number s).

(** The [for item in data] loop of lines 164-174.  The boolean is the local
    [stop_entire_search]; a [break] leaves the loop with it set. *)
Fixpoint for_items (data : list Item) (stop_entire_search : bool)
  (s : self) (tr : list event) : res bool * self * list event :=
  match data with
  | [] => (Ok stop_entire_search, s, tr)
  | item :: rest =>
      let tr := tr ++ [Eval item] in
      match parse_date (item !! "data") with
      | Raise e => (Raise e, s, tr)
      | Ok d =>
          if d <? start_date s then (Ok true, s, tr)
          else
            match parse_date (item !! "data") with
            | Raise e => (Raise e, s, tr)
            | Ok d' =>
                if d' >? end_date s then for_items rest stop_entire_search s tr
                else
                  match add_news s item with
                  | Raise e => (Raise e, s, tr)
                  | Ok s' => for_items rest stop_entire_search s' tr
                  end
            end
      end
  end.

(** The [while] loop of lines 159-178, cut after [fuel] iterations. *)
Fixpoint while_loop (fuel : nat) (stop_entire_search : bool)
  (s : self) (tr : list event) : outcome self :=
  match fuel with
  | O => Running s tr
  | S fuel' =>
      let r := requests_get (api_url s) in
      let tr := tr ++ [Get (api_url s)] in
      if String.eqb r "[]" then Finished s tr
      else
        match json_loads r with
        | Raise e => Failed e s tr
        | Ok data =>
            match for_items data stop_entire_search s tr with
            | (Raise e, s', tr') => Failed e s' tr'
            | (Ok stop, s', tr') =>
                if stop then Finished s' tr'
                else while_loop fuel' stop (set_page_number (page_number s' + 1) s') tr'
            end
        end
  end.

Definition consume_api (fuel : nat) (s : self) : outcome self :=
  while_loop fuel false s [].

(** An item older than the start [sd] of the range. *)
Definition old (sd : Z) (item : Item) : Prop :=
  exists d, parse_date (item !! "data") = Ok d /\ d < sd.

(** An event that is not the evaluation of such an item. *)
Definition fresh (sd : Z) (ev : event) : Prop :=
  match ev with
  | Eval item => ~ old sd item
  | Get _ => True
  end.

(** A search for the range from [sd] to [ed] whose records satisfy [I]. *)
Definition inv (sd ed : Z) (I : list PublicoNews -> Prop) (s : self) : Prop :=
  start_date s = sd /\ end_date s = ed /\ I (found_news s).

End Methods.
End PublicoTopicSearch.

(** *** class PublicoKeywordsSearch *)

Module PublicoKeywordsSearch.
Section Methods.
Context `{Env}.

Record self : Type := {
  keywords : string;
  base_api_url : string;
  start_date : Py.date;
  end_date : Py.date;
  page_number : Z;
  found_news : list PublicoNews
}.

Definition init (keywords_ start_ end_ : string) : res self :=
  s <- datetime_from_string start_ ;;
  e <- datetime_from_string end_ ;;
  Ok {| keywords := keywords_;
        base_api_url := "https://www.publico.pt/api/list/search/?query=";
        start_date := datetime_date s; end_date := datetime_date e;
        page_number := 1; found_news := [] |}.

Definition set_found_news (l : list PublicoNews) (s : self) : self :=
  {| keywords := keywords s; base_api_url := base_api_url s;
     start_date := start_date s; end_date := end_date s;
     page_number := page_number s; found_news := l |}.

Definition set_page_number (n : Z) (s : self) : self :=
  {| keywords := keywords s; base_api_url := base_api_url s;
     start_date := start_date s; end_date := end_date s;
     page_number := n; found_news := found_news s |}.

Definition add_news (s : self) (data : Item) : res self :=
  news_object <- deserialize_news data ;;
  match news_object with
  | Some n =>
      if negb (contains n (found_news s))
      then Ok (set_found_news (found_news s ++ [n]) s)
      else Ok s
  | None => Ok s
  end.

Definition api_url (s : self) : string :=
  base_api_url s +:+ lower (replace " " "%20" (keywords s))
  +:+ "&start=" +:+ strftime_dmY (start_date s)
  +:+ "&end=" +:+ strftime_dmY (end_date s)
  +:+ "&page=" +:+ str (page_number s).

(** The [for item in data] loop of lines 243-244. *)
Fixpoint for_items (data : list Item) (s : self) (tr : list event)
  : res unit * self * list event :=
  match data with
  | [] => (Ok tt, s, tr)
  | item :: rest =>
      let tr := tr ++ [Eval item] in
      match add_news s item with
      | Raise e => (Raise e, s, tr)
      | Ok s' => for_items rest s' tr
      end
  end.

(** The [while] loop of lines 238-246, cut after [fuel] iterations. *)
Fixpoint while_loop (fuel : nat) (s : self) (tr : list event) : outcome self :=
  match fuel with
  | O => Running s tr
  | S fuel' =>
      let r := requests_get (api_url s) in
      let tr := tr ++ [Get (api_url s)] in
      if String.eqb r "[]" then Finished s tr
      else
        match json_loads r with
        | Raise e => Failed e s tr
        | Ok data =>
            match for_items data s tr with
            | (Raise e, s', tr') => Failed e s' tr'
            | (Ok _, s', tr') =>
                while_loop fuel' (set_page_number (page_number s' + 1) s') tr'
            end
        end
  end.

Definition consume_api (fuel : nat) (s : self) : outcome self :=
  while_loop fuel s [].

End Methods.
End PublicoKeywordsSearch.

(** The URLs of the listing pages a run requested, in order. *)
Fixpoint requested (tr : list event) : list string :=
  match tr with
  | [] => []
  | Get url_ :: rest => url_ :: requested rest
  | Eval _ :: rest => requested rest
  end.

End Publico.

(** ** decorators.py *)

Module Decorators.
Import Py.

(** The values of the JSON document of a request that the decorators read. *)
Inductive jval : Type :=
| JStr (s : string)
| JList (l : list string).

(** [request.get_json()] *)
Abbreviation json_doc := (gmap string jval) (only parsing).

(** What the decorators reach outside the module. *)
Class Env : Type := {
  to_list : option jval -> list string;                 (* app.core.common.helpers *)
  validate_url : string -> bool;                        (* PublicoNews.validate_url *)
  datetime_from_string : option jval -> res datetime;   (* app.core.common.helpers *)
  number_of_months_between_2_dates : date -> date -> Z; (* app.core.common.helpers *)
  RequestError_is_ValueError : bool
    (* whether custom_exceptions.RequestError derives from ValueError *)
}.


(** What a decorated call does before it hands over to the view. *)
Inductive check : Type :=
| ValidateUrl (url_ : string).

Section Decorated.
Context `{Env}.
(** The wrapped view [f]: it runs on a world [W] (the
    network, the job store) and returns or raises. *)
Context {W A : Type} (f : W -> res A * W).

(** [str(l)] for a list of ints, as the f-string of line 25 prints it. *)
Definition repr_list (l : list Z) : string :=
  "[" +:+ join ", " (map str l) +:+ "]".

(** [[i for i, value in enumerate(valid_url) if not value]] *)
Fixpoint invalid_index_from (i : Z) (valid_url : list bool) : list Z :=
  match valid_url with
  | [] => []
  | value :: rest =>
      if negb value then i :: invalid_index_from (i + 1) rest
      else invalid_index_from (i + 1) rest
  end.

Definition too_many_urls : string :=
  "Too many URLS to search. Please provide up to 50 URLS!".

Definition invalid_urls (invalid_urls_index : list Z) : string :=
  "Invalid URLs provided at position: " +:+ repr_list invalid_urls_index.

(** [validate_urls(f)]: the decorated function, with the shape checks it
    made. *)
Definition validate_urls (request : json_doc) (w : W)
  : list check * (res A * W) :=
  let data := to_list (request !! "url") in
  if (Z.of_nat (length data) >? 50) then
    ([], (Raise (RequestError too_many_urls), w))
  else
    let valid_url := map validate_url data in
    let checks := map ValidateUrl data in
    let invalid_urls_index := invalid_index_from 0 valid_url in
    if negb (Z.of_nat (length invalid_urls_index) =? 0) then
      (checks, (Raise (RequestError (invalid_urls invalid_urls_index)), w))
    else (checks, f w).

Definition start_after_end : string :=
  "Invalid dates provided! Starting date cannot be greater than end date.".

Definition range_too_big : string :=
  "Date range is too big. Please limit your search up to 3 months.".

Definition invalid_format : string :=
  "Invalid date string format provided! Please provide dates in the following format: dd/mm/AAAA".

(** [isinstance(e, ValueError)] *)
Definition is_ValueError (e : exn) : bool :=
  match e with
  | ValueError => true
  | RequestError _ => RequestError_is_ValueError
  | _ => false
  end.

(** An exception raised inside the [try] of lines 34-52. *)
Definition raise_in_try (e : exn) : exn :=
  if is_ValueError e then RequestError invalid_format else e.

(** The [try] block of [validate_dates]: [Ok tt] when it falls through. *)
Definition check_dates (request : json_doc) : res unit :=
  match datetime_from_string (request !! "start_date") with
  | Raise e => Raise (raise_in_try e)
  | Ok s =>
      let start_date := datetime_date s in
      match datetime_from_string (request !! "end_date") with
      | Raise e => Raise (raise_in_try e)
      | Ok e =>
          let end_date := datetime_date e in
          let months_diff := number_of_months_between_2_dates start_date end_date in
          if months_diff <? 0 then Raise (raise_in_try (RequestError start_after_end))
          else if months_diff >? 3 then Raise (raise_in_try (RequestError range_too_big))
          else Ok tt
      end
  end.

(** [validate_dates(f)]: the decorated function. *)
Definition validate_dates (request : json_doc) (w : W) : res A * W :=
  match check_dates request with
  | Raise e => (Raise e, w)
  | Ok _ => f w
  end.

End Decorated.
End Decorators.

(** ** Sample worlds

    Small concrete instances of the three environments, on which the
    definitions above run. *)

Module Samples.
Import Py.

(** A lookup table keyed by strings. *)
Definition table {A} (rows : list (string * A)) (k : string) : option A :=
  (list_to_map rows : gmap string A) !! k.

Definition day : Z := 86400000000.

(** Midnight of the [d]-th day. *)
Definition midnight (d : Z) : datetime := (d - 1) * day.

(** Dates are written [dd/mm/yyyy]; the table knows a few days of 2021. *)
Definition sample_dates : list (string * Z) :=
  [("01/01/2021", 737791); ("10/01/2021", 737800); ("20/01/2021", 737810);
   ("31/01/2021", 737821); ("01/12/2020", 737760); ("01/06/2021", 737942)].

Definition sample_datetime_from_string (s : string) : res datetime :=
  match table sample_dates s with
  | Some d => Ok (midnight d)
  | None => Raise ValueError
  end.

(** The case mappings on text whose letters are ASCII. *)
Definition upper_char (c : ascii) : ascii :=
  let n := N_of_ascii c in
  if ((97 <=? n) && (n <=? 122))%N then ascii_of_N (n - 32) else c.

Definition lower_char (c : ascii) : ascii :=
  let n := N_of_ascii c in
  if ((65 <=? n) && (n <=? 90))%N then ascii_of_N (n + 32) else c.

Fixpoint map_chars (f : ascii -> ascii) (s : string) : string :=
  match s with
  | EmptyString => EmptyString
  | String c s' => String (f c) (map_chars f s')
  end.

Definition ascii_lower (s : string) : string := map_chars lower_char s.

Definition ascii_capitalize (s : string) : string :=
  match s with
  | EmptyString => EmptyString
  | String c s' => String (upper_char c) (ascii_lower s')
  end.

(** *** A CM site *)

Definition anchor (data_name : string) : CM.Element :=
  {| CM.el_text := None; CM.attrib := {[ "data-name" := data_name ]} |}.

Definition span (t : string) : CM.Element :=
  {| CM.el_text := Some t; CM.attrib := ∅ |}.

Definition article (data_name date_text lead_text : string) : CM.Article :=
  {| CM.h2_a := [anchor data_name];
     CM.span_dateTime := [span date_text];
     CM.span_lead := [span lead_text] |}.

(** An article in range, one whose detail page is gone, one whose markup
    has no link, one in range with two authors, one out of range. *)
Definition art_a : CM.Article :=
  article "/sociedade/detalhe/a?ref=Mais" "10/01/2021|" "lead a".
Definition art_gone : CM.Article :=
  article "/sociedade/detalhe/gone?ref=Mais" "10/01/2021|" "lead gone".
Definition art_nolink : CM.Article :=
  {| CM.h2_a := []; CM.span_dateTime := [span "10/01/2021|"];
     CM.span_lead := [span "lead"] |}.
Definition art_two : CM.Article :=
  article "https://www.cmjornal.pt/opiniao/detalhe/two" "20/01/2021|" "lead two".
Definition art_old : CM.Article :=
  article "/sociedade/detalhe/old" "01/12/2020|" "lead old".

Definition listing (arts : list CM.Article) : CM.Tree :=
  {| CM.articles := arts; CM.span_autor := []; CM.centro_h1 := [];
     CM.texto_container := [] |}.

Definition detail (authors_ : list string) (title_ : string) (body : list string) : CM.Tree :=
  {| CM.articles := []; CM.span_autor := map span authors_;
     CM.centro_h1 := [span title_]; CM.texto_container := body |}.

(** The documents of the site, by their text. *)
Definition cm_documents : list (string * CM.Tree) :=
  [("listing dup", listing [art_a; art_a]);
   ("listing broken", listing [art_nolink; art_a]);
   ("listing one", listing [art_a]);
   ("listing gone", listing [art_gone; art_a]);
   ("listing mixed", listing [art_old; art_two; art_a]);
   ("detail a", detail [] "Title a" ["Body"; "a"]);
   ("detail two", detail ["Ana"; "Rui"] "Title two"
                    ["Body two."; "Para aceder a todos os Exclusivos CM assine"])].

(** The first listing page of each topic; every later page is empty. *)
Definition cm_listings : list (string * string) :=
  [("contentStartIndex=0&searchKeywords=dup", "listing dup");
   ("contentStartIndex=0&searchKeywords=broken", "listing broken");
   ("contentStartIndex=0&searchKeywords=one", "listing one");
   ("contentStartIndex=0&searchKeywords=gone", "listing gone");
   ("contentStartIndex=0&searchKeywords=mixed", "listing mixed")].

Definition cm_requests_get (url_ : string) : string :=
  match filter (fun row => str_in (fst row) url_ = true) cm_listings with
  | row :: _ => snd row
  | [] => EmptyString
  end.

Definition cm_details : list (string * CM.Response) :=
  [("https://www.cmjornal.pt/sociedade/detalhe/a",
    {| CM.status_code := 200; CM.response_text := "detail a" |});
   ("https://www.cmjornal.pt/opiniao/detalhe/two",
    {| CM.status_code := 200; CM.response_text := "detail two" |})].

Definition cm_send_post_then_get_html_string
  (login : string) (payload : option string * option string) (url_ : string)
  : CM.Response :=
  match table cm_details url_ with
  | Some r => r
  | None => {| CM.status_code := 404; CM.response_text := "not found" |}
  end.

Definition cm_env : CM.Env :=
  {| CM.CM_USER := Some "user"; CM.CM_PW := Some "pw";
     CM.requests_get := cm_requests_get;
     CM.html_fromstring := fun s =>
       match table cm_documents s with
       | Some t => Ok t
       | None => Raise (OtherError "ParserError")
       end;
     CM.datetime_from_string := sample_datetime_from_string;
     CM.send_post_then_get_html_string := cm_send_post_then_get_html_string;
     CM.normalize_str := fun o =>
       match o with
       | Some s => Ok s
       | None => Raise AttributeError
       end;
     CM.unescape := fun s => s;
     CM.capitalize := ascii_capitalize |}.

(** A fresh search for January 2021. *)
Definition cm_search (topic_ : string) : CM.CMTopicSearch :=
  {| CM.topic := topic_; CM.start_date := midnight 737791;
     CM.end_date := midnight 737821; CM.found_news := [] |}.

(** *** A Publico API *)

Definition pub_item (date_text url_ : string) : gmap string string :=
  {[ "data" := date_text; "url" := url_; "titulo" := "Title" ]}.

(** An item without a URL: it does not deserialize. *)
Definition pub_item_nourl (date_text : string) : gmap string string :=
  {[ "data" := date_text ]}.

Definition pub_parse_date (o : option string) : res Z :=
  match o with
  | Some s =>
      match table sample_dates s with
      | Some d => Ok d
      | None => Raise ValueError
      end
  | None => Raise TypeError
  end.

Definition pub_deserialize_news (item : gmap string string)
  : res (option Publico.PublicoNews) :=
  match pub_parse_date (item !! "data"), item !! "url" with
  | Ok d, Some u =>
      Ok (Some {| Publico.title := default EmptyString (item !! "titulo");
                  Publico.description := None; Publico.url := u;
                  Publico.rubric := EmptyString; Publico.date := midnight d;
                  Publico.authors := []; Publico.is_opinion := false;
                  Publico.text := None |})
  | _, _ => Ok None
  end.

Definition pub_validate_url (url_ : string) : bool :=
  String.prefix "https://www.publico.pt/" url_.

Definition pub_build_from_url (url_ : string) : res Publico.PublicoNews :=
  if pub_validate_url url_ then
    Ok {| Publico.title := "Title"; Publico.description := None;
          Publico.url := url_; Publico.rubric := EmptyString;
          Publico.date := midnight 737800; Publico.authors := [];
          Publico.is_opinion := false; Publico.text := Some "Body" |}
  else Raise (OtherError "ConnectionError").

(** The pages of the API, by their text.  The second page of the topic
    holds an item from December 2020 and, after it, one in range. *)
Definition pub_pages : list (string * list (gmap string string)) :=
  [("topic page 1",
    [pub_item "01/06/2021" "https://www.publico.pt/new";
     pub_item "20/01/2021" "https://www.publico.pt/x";
     pub_item "10/01/2021" "https://www.publico.pt/x";
     pub_item_nourl "10/01/2021"]);
   ("topic page 2",
    [pub_item "10/01/2021" "https://www.publico.pt/y";
     pub_item "01/12/2020" "https://www.publico.pt/old";
     pub_item "10/01/2021" "https://www.publico.pt/late"]);
   ("topic page 3", [pub_item "10/01/2021" "https://www.publico.pt/z"]);
   ("keywords page 1",
    [pub_item "01/06/2021" "https://www.publico.pt/june";
     pub_item_nourl "10/01/2021";
     pub_item "10/01/2021" "https://www.publico.pt/k"])].

Definition pub_urls : list (string * string) :=
  [("https://www.publico.pt/api/list/politica?page=1", "topic page 1");
   ("https://www.publico.pt/api/list/politica?page=2", "topic page 2");
   ("https://www.publico.pt/api/list/politica?page=3", "topic page 3");
   ("https://www.publico.pt/api/list/search/?query=covid&start=01-01-2021&end=31-01-2021&page=1",
    "keywords page 1")].

Definition pub_strftime_dmY (d : Z) : string :=
  if d =? 737791 then "01-01-2021"
  else if d =? 737821 then "31-01-2021" else "??-??-????".

Definition pub_env : Publico.Env :=
  {| Publico.requests_get := fun u => default "[]" (table pub_urls u);
     Publico.json_loads := fun r =>
       match table pub_pages r with
       | Some data => Ok data
       | None => Raise ValueError
       end;
     Publico.datetime_from_string := sample_datetime_from_string;
     Publico.parse_date := pub_parse_date;
     Publico.deserialize_news := pub_deserialize_news;
     Publico.validate_url := pub_validate_url;
     Publico.build_from_url := pub_build_from_url;
     Publico.strftime_dmY := pub_strftime_dmY;
     Publico.lower := ascii_lower |}.

(** Fresh searches for January 2021. *)
Definition pub_topic : Publico.PublicoTopicSearch.self :=
  {| Publico.PublicoTopicSearch.search_topic := "Politica";
     Publico.PublicoTopicSearch.base_api_url := "https://www.publico.pt/api/list/";
     Publico.PublicoTopicSearch.start_date := 737791;
     Publico.PublicoTopicSearch.end_date := 737821;
     Publico.PublicoTopicSearch.page_number := 1;
     Publico.PublicoTopicSearch.found_news := [] |}.

Definition pub_keywords : Publico.PublicoKeywordsSearch.self :=
  {| Publico.PublicoKeywordsSearch.keywords := "covid";
     Publico.PublicoKeywordsSearch.base_api_url :=
       "https://www.publico.pt/api/list/search/?query=";
     Publico.PublicoKeywordsSearch.start_date := 737791;
     Publico.PublicoKeywordsSearch.end_date := 737821;
     Publico.PublicoKeywordsSearch.page_number := 1;
     Publico.PublicoKeywordsSearch.found_news := [] |}.

(** What the topic search has done when it meets the item of December. *)
Definition pub_item_old : gmap string string :=
  pub_item "01/12/2020" "https://www.publico.pt/old".

Definition pub_trace_to_old : list Publico.event :=
  [Publico.Get "https://www.publico.pt/api/list/politica?page=1";
   Publico.Eval (pub_item "01/06/2021" "https://www.publico.pt/new");
   Publico.Eval (pub_item "20/01/2021" "https://www.publico.pt/x");
   Publico.Eval (pub_item "10/01/2021" "https://www.publico.pt/x");
   Publico.Eval (pub_item_nourl "10/01/2021");
   Publico.Get "https://www.publico.pt/api/list/politica?page=2";
   Publico.Eval (pub_item "10/01/2021" "https://www.publico.pt/y")].

(** *** Requests to the decorators *)

Definition dec_env : Decorators.Env :=
  {| Decorators.to_list := fun v =>
       match v with
       | Some (Decorators.JStr s) => [s]
       | Some (Decorators.JList l) => l
       | None => []
       end;
     Decorators.validate_url := pub_validate_url;
     Decorators.datetime_from_string := fun v =>
       match v with
       | Some (Decorators.JStr s) => sample_datetime_from_string s
       | _ => Raise TypeError
       end;
     Decorators.number_of_months_between_2_dates := fun s e => (e - s) / 30;
     Decorators.RequestError_is_ValueError := false |}.


Definition request_urls (l : list string) : gmap string Decorators.jval :=
  {[ "url" := Decorators.JList l ]}.

Definition request_dates (start_ end_ : string) : gmap string Decorators.jval :=
  {[ "start_date" := Decorators.JStr start_; "end_date" := Decorators.JStr end_ ]}.

(** A denylisted article whose markup has neither date nor lead, and an
    API item whose date does not read. *)
Definition art_video : CM.Article :=
  {| CM.h2_a := [anchor "/multimedia/videos/detalhe/v?ref=Mais"];
     CM.span_dateTime := []; CM.span_lead := [] |}.

Definition pub_item_baddate : gmap string string :=
  pub_item "yesterday" "https://www.publico.pt/bad".

(** A view that counts its calls and returns the count. *)
Definition counting_view (w : nat) : res nat * nat := (Ok (S w), S w).

End Samples.

(** * Properties *)

(** ** Strings *)

Module PyFacts.
Import Py.

Lemma str_app_nil_l (s : string) : EmptyString +:+ s = s.
Proof. reflexivity. Qed.

Lemma str_app_cons (c : ascii) (s t : string) : String c s +:+ t = String c (s +:+ t).
Proof. reflexivity. Qed.

Lemma str_app_nil_r (s : string) : s +:+ EmptyString = s.
Proof.
  induction s as [|c s IH]; [reflexivity |].
  now rewrite str_app_cons, IH.
Qed.

Lemma str_app_assoc (a b c : string) : (a +:+ b) +:+ c = a +:+ (b +:+ c).
Proof.
  induction a as [|x a IH]; [reflexivity |].
  now rewrite !str_app_cons, IH.
Qed.

Lemma prefix_nil_l (s : string) : String.prefix EmptyString s = true.
Proof. destruct s; reflexivity. Qed.

Lemma prefix_cons (a b : ascii) (p s : string) :
  String.prefix (String a p) (String b s) = true <-> a = b /\ String.prefix p s = true.
Proof.
  simpl. destruct (ascii_dec a b) as [->|Hne].
  - split; [intros Hp; split; [reflexivity | exact Hp] | intros [_ Hp]; exact Hp].
  - split; [discriminate | intros [Heq _]; contradiction].
Qed.

Lemma prefix_split (p s : string) :
  String.prefix p s = true -> exists t, s = p +:+ t.
Proof.
  revert s. induction p as [|a p IH]; intros s Hp.
  - exists s. reflexivity.
  - destruct s as [|b s]; [discriminate |].
    apply prefix_cons in Hp as [-> Hp].
    destruct (IH _ Hp) as [t ->]. exists t. reflexivity.
Qed.

Lemma prefix_app (p t : string) : String.prefix p (p +:+ t) = true.
Proof.
  induction p as [|a p IH]; [apply prefix_nil_l |].
  rewrite str_app_cons. apply prefix_cons. split; [reflexivity | exact IH].
Qed.

Lemma before_prefix (sep s : string) :
  String.prefix sep s = true -> before sep s = EmptyString.
Proof. intros Hp. destruct s; cbn [before]; now rewrite Hp. Qed.

Lemma before_from (sep s : string) : s = before sep s +:+ from sep s.
Proof.
  induction s as [|c s IH].
  - destruct sep; reflexivity.
  - cbn [before from]. destruct (String.prefix sep (String c s)); [reflexivity |].
    now rewrite str_app_cons, <- IH.
Qed.

Lemma from_cases (sep s : string) :
  from sep s = EmptyString \/ String.prefix sep (from sep s) = true.
Proof.
  induction s as [|c s IH].
  - left. destruct sep; reflexivity.
  - cbn [from]. destruct (String.prefix sep (String c s)) eqn:Hp; [right; exact Hp | exact IH].
Qed.

(** A prefix of the part in front of [sep] is a prefix of the whole. *)
Lemma prefix_before (sep : string) (s p : string) :
  String.prefix p (before sep s) = true -> String.prefix p s = true.
Proof.
  revert p. induction s as [|c s IH]; intros p Hp.
  - destruct sep; exact Hp.
  - cbn [before] in Hp. destruct (String.prefix sep (String c s)).
    + destruct p; [apply prefix_nil_l | discriminate].
    + destruct p as [|a p]; [reflexivity |].
      apply prefix_cons in Hp as [-> Hp]. apply prefix_cons. split; [reflexivity | now apply IH].
Qed.

(** No occurrence of a non-empty [sep] in front of its first occurrence. *)
Lemma str_in_before (a : ascii) (sep s : string) :
  str_in (String a sep) (before (String a sep) s) = false.
Proof.
  induction s as [|c s IH].
  - reflexivity.
  - cbn [before]. destruct (String.prefix (String a sep) (String c s)) eqn:Hp.
    + reflexivity.
    + cbn [str_in]. rewrite IH.
      destruct (String.prefix (String a sep) (String c (before (String a sep) s))) eqn:Hq;
        [| reflexivity].
      apply prefix_cons in Hq as [-> Hq]. apply prefix_before in Hq.
      assert (String.prefix (String c sep) (String c s) = true) as Hc
        by (apply prefix_cons; split; [reflexivity | exact Hq]).
      congruence.
Qed.

(** The first piece of [split]: what is in front of the first separator. *)
Lemma split_go_head (sep cur s : string) :
  split_go sep 0 cur s !! 0%nat = Some (cur +:+ before sep s).
Proof.
  revert cur. induction s as [|c s IH]; intros cur.
  - destruct sep; simpl; now rewrite str_app_nil_r.
  - cbn [split_go before]. destruct (String.prefix sep (String c s)).
    + simpl. now rewrite str_app_nil_r.
    + now rewrite IH, str_app_assoc, str_app_cons, str_app_nil_l.
Qed.

Lemma split_head (sep s : string) : getitem (split sep s) 0 = Ok (before sep s).
Proof. unfold getitem, split. now rewrite split_go_head. Qed.

End PyFacts.

(** ** The scraped source *)

Module CMFacts.
Import Py PyFacts CM.

Lemma prefix_slash (c : ascii) (rest : string) :
  String.prefix "/" (String c rest) = Ascii.eqb c "/".
Proof.
  cbn [String.prefix]. rewrite prefix_nil_l.
  destruct (ascii_dec "/" c) as [<-|Hne]; [reflexivity |].
  symmetry. apply Ascii.eqb_neq. congruence.
Qed.

Lemma normalize_url_before (c : ascii) (rest : string) :
  normalize_url (String c rest) = Ok (before "?ref" (absolute (String c rest))).
Proof.
  unfold normalize_url, absolute. now rewrite split_head, prefix_slash.
Qed.

(** In front of a [?ref] that follows a text without one, that text is the
    first piece: no occurrence of [?ref] can begin inside it. *)
Lemma before_ref_app (a b : string) :
  str_in "?ref" a = false -> before "?ref" (a +:+ "?ref" +:+ b) = a.
Proof.
  induction a as [|c a IH]; intros Hin.
  - rewrite str_app_nil_l. apply before_prefix, prefix_app.
  - cbn [str_in] in Hin.
    destruct (String.prefix "?ref" (String c a)) eqn:Hp; [discriminate |].
    rewrite str_app_cons. cbn [before].
    destruct (String.prefix "?ref" (String c (a +:+ "?ref" +:+ b))) eqn:Hq.
    + exfalso. apply prefix_cons in Hq as [<- Hq].
      destruct a as [|x a];
        [ rewrite str_app_nil_l in Hq; apply prefix_cons in Hq as [Hq _]; discriminate Hq
        | rewrite str_app_cons in Hq; apply prefix_cons in Hq as [<- Hq] ].
      destruct a as [|y a];
        [ rewrite str_app_nil_l in Hq; apply prefix_cons in Hq as [Hq _]; discriminate Hq
        | rewrite str_app_cons in Hq; apply prefix_cons in Hq as [<- Hq] ].
      destruct a as [|z a];
        [ rewrite str_app_nil_l in Hq; apply prefix_cons in Hq as [Hq _]; discriminate Hq
        | rewrite str_app_cons in Hq; apply prefix_cons in Hq as [<- _] ].
      pose proof (prefix_app "?ref" a) as Hr.
      rewrite !str_app_cons, str_app_nil_l in Hr. congruence.
    + now rewrite IH.
Qed.

Lemma absolute_app (c : ascii) (rest t : string) :
  absolute (String c rest +:+ t) = absolute (String c rest) +:+ t.
Proof.
  unfold absolute. rewrite str_app_cons, !prefix_slash.
  destruct (Ascii.eqb c "/"); [| reflexivity].
  now rewrite <- str_app_cons, str_app_assoc.
Qed.

Lemma getitem_Ok {A} (l : list A) (i : nat) (a : A) :
  getitem l i = Ok a <-> l !! i = Some a.
Proof.
  unfold getitem. destruct (l !! i); split; intros Heq; try discriminate; congruence.
Qed.

Lemma dict_getitem_Ok (d : gmap string string) (k v : string) :
  dict_getitem d k = Ok v <-> d !! k = Some v.
Proof.
  unfold dict_getitem. destruct (d !! k); split; intros Heq; try discriminate; congruence.
Qed.

(** Take the first computation of a sequence that went through apart. *)
Ltac bind_ok Hrun E :=
  match type of Hrun with
  | Py.bind ?c _ = _ => destruct c eqn:E; cbn [Py.bind] in Hrun; [| discriminate Hrun]
  end.

Section Run.
Context `{Env}.

Abbreviation fetch url_ := (send_post_then_get_html_string login_url login_payload url_).

(** What an article that reaches the append of line 148 went through. *)
Lemma article_news_Some (self : CMTopicSearch) (article : Article) (n : CMNews) :
  article_news self article = Ok (Some n) ->
  exists a url0 d dtext l tree,
    h2_a article !! 0%nat = Some a /\
    attrib a !! "data-name" = Some url0 /\
    normalize_url url0 = Ok (url n) /\
    denylisted (url n) = false /\
    span_dateTime article !! 0%nat = Some d /\
    el_text d = Some dtext /\
    datetime_from_string (replace "|" "" dtext) = Ok (date n) /\
    start_date self < date n < end_date self /\
    span_lead article !! 0%nat = Some l /\
    description n = el_text l /\
    status_code (fetch (url n)) = 200 /\
    html_fromstring (response_text (fetch (url n))) = Ok tree /\
    authors n = [authors_of (span_autor tree)].
Proof.
  unfold article_news. intros Hrun.
  bind_ok Hrun Ea. bind_ok Hrun Eu. bind_ok Hrun En.
  destruct (denylisted a1) eqn:Edeny; [discriminate Hrun |].
  bind_ok Hrun Ed. bind_ok Hrun Et. bind_ok Hrun Edate.
  destruct (negb _) eqn:Erange in Hrun; [discriminate Hrun |].
  bind_ok Hrun El.
  destruct (negb _) eqn:Estatus in Hrun; [discriminate Hrun |].
  bind_ok Hrun Etree. bind_ok Hrun Esec. bind_ok Hrun Eh.
  bind_ok Hrun Etitle. bind_ok Hrun Etext. bind_ok Hrun Ecut.
  injection Hrun as <-. cbn [url date description authors].
  apply getitem_Ok in Ea, Ed, El. apply dict_getitem_Ok in Eu.
  apply negb_false_iff in Erange, Estatus.
  apply andb_true_iff in Erange as [Hlo Hhi].
  apply Z.ltb_lt in Hlo, Hhi. apply Z.eqb_eq in Estatus.
  destruct (el_text a2) as [dtext|] eqn:Edt; [| discriminate Et].
  injection Et as ->.
  exists a, a0, a2, a3, a5, a6. repeat split; assumption || reflexivity.
Qed.

(** A property of the records that every append keeps holds of the
    records of a page. *)
Lemma for_articles_Forall (P : CMNews -> Prop) (s0 e0 : Z) :
  (forall self article n,
      start_date self = s0 -> end_date self = e0 ->
      article_news self article = Ok (Some n) -> P n) ->
  forall arts self,
    start_date self = s0 -> end_date self = e0 ->
    Forall P (found_news self) ->
    let self' := snd (for_articles arts self) in
    topic self' = topic self /\ start_date self' = s0 /\ end_date self' = e0 /\
    Forall P (found_news self').
Proof.
  intros HP arts. induction arts as [|article rest IH]; intros self Hs He Hall.
  - cbn. auto.
  - cbn [for_articles]. destruct (article_news self article) as [[n|]|e] eqn:Hart.
    + destruct (IH (append n self)) as (Ht & Hs' & He' & Hall'); try assumption.
      * cbn. apply Forall_app. split; [exact Hall |].
        constructor; [| constructor]. eapply HP; eassumption.
      * auto.
    + apply IH; assumption.
    + cbn. auto.
Qed.

Lemma loop_Forall (P : CMNews -> Prop) (s0 e0 : Z) :
  (forall self article n,
      start_date self = s0 -> end_date self = e0 ->
      article_news self article = Ok (Some n) -> P n) ->
  forall fuel l self,
    start_date self = s0 -> end_date self = e0 ->
    Forall P (found_news self) ->
    Forall P (news_of (loop fuel l self)).
Proof.
  intros HP fuel. induction fuel as [|fuel IH]; intros l self Hs He Hall.
  - exact Hall.
  - cbn [loop]. unfold step.
    destruct (_ || _); [exact Hall |].
    destruct (html_fromstring _) as [tree|e]; [| exact Hall].
    pose proof (for_articles_Forall P s0 e0 HP (articles tree) self Hs He Hall)
      as (_ & Hs' & He' & Hall').
    destruct (for_articles (articles tree) self) as [[u|e] self']; cbn [snd] in *.
    + destruct (full_stop l); [exact Hall' |]. now apply IH.
    + exact Hall'.
Qed.

Lemma listing_url_topic (self self' : CMTopicSearch) (i : Z) :
  topic self' = topic self -> listing_url self' i = listing_url self i.
Proof. unfold listing_url. now intros ->. Qed.

Lemma step_topic (l : locals) (self : CMTopicSearch) :
  match step l self with
  | Next _ self' | Break _ self' | Raised _ self' => topic self' = topic self
  end.
Proof.
  unfold step. destruct (_ || _); [reflexivity |].
  destruct (html_fromstring _) as [tree|e]; [| reflexivity].
  pose proof (for_articles_Forall (fun _ => True) (start_date self) (end_date self)
                (fun _ _ _ _ _ _ => I) (articles tree) self eq_refl eq_refl) as Hinv.
  destruct Hinv as (Ht & _); [now apply Forall_forall |].
  destruct (for_articles (articles tree) self) as [[u|e] self']; cbn [snd] in Ht.
  - destruct (full_stop l); exact Ht.
  - exact Ht.
Qed.

(** How the loop can stand after [fuel] iterations from a loop head where
    [full_stop] is false. *)
Lemma loop_exit (self0 : CMTopicSearch) (fuel : nat) :
  forall l self,
    topic self = topic self0 -> full_stop l = false ->
    match loop fuel l self with
    | Running l' _ => full_stop l' = false /\ index l' = index l + 6 * Z.of_nat fuel
    | Returned why _ =>
        exists (k : nat) html_string,
          (k < fuel)%nat /\
          html_string = requests_get (listing_url self0 (index l + 6 * Z.of_nat k)) /\
          why = EmptyPage html_string /\
          (html_string = CRLF \/ html_string = EmptyString)
    | Failed _ _ => True
    end.
Proof.
  induction fuel as [|fuel IH]; intros l self Ht Hflag.
  - cbn. split; [exact Hflag | lia].
  - cbn [loop]. pose proof (step_topic l self) as Htopic. unfold step in *.
    destruct (_ || _) eqn:Hempty.
    + exists 0%nat, (requests_get (listing_url self (index l))).
      split; [lia |]. split; [| split; [reflexivity |]].
      * rewrite Z.mul_0_r, Z.add_0_r. f_equal. now apply listing_url_topic.
      * apply orb_true_iff in Hempty as [He|He]; apply String.eqb_eq in He; auto.
    + destruct (html_fromstring _) as [tree|e]; [| exact I].
      destruct (for_articles (articles tree) self) as [[u|e] self']; [| exact I].
      rewrite Hflag in *.
      specialize (IH {| index := index l + 6; full_stop := false |} self').
      cbn [index full_stop] in IH.
      destruct (loop fuel _ self') as [why news|e s|l' s].
      * destruct IH as (k & html_string & Hk & Hpage & Hwhy & Hcase);
          [congruence | reflexivity |].
        exists (S k), html_string. split; [lia |]. split; [| auto].
        rewrite Hpage. do 2 f_equal. lia.
      * exact I.
      * destruct IH as [Hf Hi]; [congruence | reflexivity |]. split; [exact Hf | lia].
Qed.

(** C4.  [CMTopicSearch.search] never stops early.  However long it has
    run, the flag [full_stop] is false at the head of the loop (and the
    cursor is six times the number of pages read); and when the run returns,
    it left the loop on line 87, on a listing page whose text is the empty
    string or a bare CR LF: the [break] of line 152 is never taken. *)
Theorem search_never_full_stop (fuel : nat) (self : CMTopicSearch) :
  match search fuel self with
  | Running l _ => full_stop l = false /\ index l = 6 * Z.of_nat fuel
  | Returned why _ =>
      exists (k : nat) html_string,
        (k < fuel)%nat /\
        html_string = requests_get (listing_url self (6 * Z.of_nat k)) /\
        why = EmptyPage html_string /\
        (html_string = CRLF \/ html_string = EmptyString)
  | Failed _ _ => True
  end.
Proof.
  unfold search.
  exact (loop_exit self fuel {| index := 0; full_stop := false |} self eq_refl eq_refl).
Qed.

(** The run does return once it is handed an empty page. *)
Lemma loop_returns_on_empty_page (fuel : nat) (l : locals) (self : CMTopicSearch) :
  let html_string := requests_get (listing_url self (index l)) in
  html_string = CRLF \/ html_string = EmptyString ->
  loop (S fuel) l self = Returned (EmptyPage html_string) (found_news self).
Proof.
  cbn [loop]. unfold step. intros [-> | ->]; reflexivity.
Qed.

Lemma for_articles_app (pre post : list Article) (self : CMTopicSearch) :
  for_articles (pre ++ post) self =
  match for_articles pre self with
  | (Ok _, self') => for_articles post self'
  | (Raise e, self') => (Raise e, self')
  end.
Proof.
  revert self. induction pre as [|a pre IH]; intros self.
  - reflexivity.
  - cbn [for_articles app]. destruct (article_news self a) as [[n|]|e]; auto.
Qed.

(** An article that went as far as the request of its detail page and got
    a status other than 200 is a [continue]. *)
Lemma article_news_not_200 (self : CMTopicSearch) (article : Article)
  (a d l : Element) (url0 url_ dtext : string) (news_date : Z) :
  h2_a article !! 0%nat = Some a ->
  attrib a !! "data-name" = Some url0 ->
  normalize_url url0 = Ok url_ ->
  denylisted url_ = false ->
  span_dateTime article !! 0%nat = Some d ->
  el_text d = Some dtext ->
  datetime_from_string (replace "|" "" dtext) = Ok news_date ->
  start_date self < news_date < end_date self ->
  span_lead article !! 0%nat = Some l ->
  status_code (fetch url_) <> 200 ->
  article_news self article = Ok None.
Proof.
  intros Ha Hu Hn Hdeny Hd Ht Hdate [Hlo Hhi] Hl Hstatus.
  unfold article_news.
  apply getitem_Ok in Ha, Hd, Hl. apply dict_getitem_Ok in Hu.
  rewrite Ha. cbn [Py.bind]. rewrite Hu. cbn [Py.bind]. rewrite Hn. cbn [Py.bind].
  rewrite Hdeny, Hd. cbn [Py.bind]. rewrite Ht. cbn [Py.bind].
  rewrite Hdate. cbn [Py.bind].
  apply Z.ltb_lt in Hlo, Hhi. rewrite Hlo, Hhi. cbn [andb negb].
  rewrite Hl. cbn [Py.bind].
  apply Z.eqb_neq in Hstatus. now rewrite Hstatus.
Qed.

(** C6.  A status other than 200 on the request of an item's detail page
    skips exactly that item.  The article is one that reaches the request:
    it has a link, it is not denylisted, its date reads and is in range,
    it has a lead.  Then its page is worked through as if the article were
    not on it (nothing is appended for it, nothing is raised for it, the
    articles after it are processed), and so is the iteration of the
    pagination loop that reads the page. *)
Theorem item_fetch_failure_skips_item (article : Article)
  (a d l : Element) (url0 url_ dtext : string) (news_date : Z) :
  h2_a article !! 0%nat = Some a ->
  attrib a !! "data-name" = Some url0 ->
  normalize_url url0 = Ok url_ ->
  denylisted url_ = false ->
  span_dateTime article !! 0%nat = Some d ->
  el_text d = Some dtext ->
  datetime_from_string (replace "|" "" dtext) = Ok news_date ->
  span_lead article !! 0%nat = Some l ->
  status_code (fetch url_) <> 200 ->
  forall (pre post : list Article) (s : CMTopicSearch),
    start_date s < news_date < end_date s ->
    for_articles (pre ++ article :: post) s = for_articles (pre ++ post) s /\
    forall (lc : locals) (tree : Tree),
      html_fromstring (requests_get (listing_url s (index lc))) = Ok tree ->
      articles tree = pre ++ article :: post ->
      String.eqb (requests_get (listing_url s (index lc))) CRLF
      || String.eqb (requests_get (listing_url s (index lc))) EmptyString = false ->
      step lc s =
      match for_articles (pre ++ post) s with
      | (Raise e, s') => Raised e s'
      | (Ok _, s') =>
          if full_stop lc then Break FullStop s'
          else Next {| index := index lc + 6; full_stop := full_stop lc |} s'
      end.
Proof.
  intros Ha Hu Hn Hdeny Hd Ht Hdate Hl Hstatus pre post s Hrange.
  assert (forall s', start_date s' = start_date s -> end_date s' = end_date s ->
                     article_news s' article = Ok None) as Hskip.
  { intros s' Hs He. eapply article_news_not_200; try eassumption. now rewrite Hs, He. }
  assert (for_articles (pre ++ article :: post) s = for_articles (pre ++ post) s) as Hpage.
  { rewrite !for_articles_app.
    pose proof (for_articles_Forall (fun _ => True) (start_date s) (end_date s)
                  (fun _ _ _ _ _ _ => I) pre s eq_refl eq_refl) as Hinv.
    destruct Hinv as (_ & Hs & He & _); [now apply Forall_forall |].
    destruct (for_articles pre s) as [[u|e] s']; cbn [snd] in Hs, He; [| reflexivity].
    cbn [for_articles]. now rewrite (Hskip s' Hs He). }
  split; [exact Hpage |].
  intros lc tree Htree Harts Hnonempty. unfold step.
  now rewrite Hnonempty, Htree, Harts, Hpage.
Qed.

(** C10.  The [authors] of every record that [search] builds is a list of
    one element.  With [tree] the detail page of the record, that element
    is the text of the first author span when there is one, and otherwise
    the empty list of spans itself: never one name per author. *)
Theorem authors_is_singleton (fuel : nat) (topic_ : string) (start_ end_ : Z) :
  Forall
    (fun n =>
       exists tree,
         html_fromstring (response_text (fetch (url n))) = Ok tree /\
         authors n =
           [match span_autor tree with
            | first :: _ => text_val (el_text first)
            | [] => PyElements []
            end])
    (news_of (search fuel {| topic := topic_; start_date := start_;
                             end_date := end_; found_news := [] |})).
Proof.
  unfold search. eapply loop_Forall; [| reflexivity | reflexivity | constructor].
  intros self article n _ _ Hart.
  apply article_news_Some in Hart
    as (a & url0 & d & dtext & l & tree & _ & _ & _ & _ & _ & _ & _ & _ & _ & _ & _ & Ht & Ha).
  exists tree. split; [exact Ht |]. rewrite Ha. unfold authors_of.
  now destruct (span_autor tree).
Qed.

End Run.

(** C9.  The URL of an item, as the denylist test and the record get it.
    A non-empty [data-name] is first made absolute (the origin of the
    source in front of a URL that begins with a slash, any other URL as it
    is); the result [r] is then what stands in front of the first [?ref]:
    it has no [?ref] in it, and it is the whole absolute URL or is followed
    in it by [?ref].  So [/x/y] becomes [https://www.cmjornal.pt/x/y], and a
    URL without [?ref] to which [?ref=X] is appended loses it again. *)
Theorem normalize_url_spec (c : ascii) (rest : string) :
  (exists r,
      normalize_url (String c rest) = Ok r /\
      str_in "?ref" r = false /\
      (r = absolute (String c rest) \/
       exists tail, absolute (String c rest) = r +:+ "?ref" +:+ tail)) /\
  absolute (String c rest) =
    (if Ascii.eqb c "/" then "https://www.cmjornal.pt" +:+ String c rest
     else String c rest) /\
  (str_in "?ref" (absolute (String c rest)) = false ->
   normalize_url (String c rest) = Ok (absolute (String c rest)) /\
   forall X, normalize_url (String c rest +:+ "?ref=" +:+ X)
             = Ok (absolute (String c rest))) /\
  normalize_url "/x/y" = Ok "https://www.cmjornal.pt/x/y".
Proof.
  split; [| split; [| split]].
  - exists (before "?ref" (absolute (String c rest))).
    split; [apply normalize_url_before |]. split; [apply str_in_before |].
    pose proof (before_from "?ref" (absolute (String c rest))) as Hsplit.
    destruct (from_cases "?ref" (absolute (String c rest))) as [Hnil|Hpre].
    + left. rewrite Hnil, str_app_nil_r in Hsplit. now symmetry.
    + right. apply prefix_split in Hpre as [tail Htail]. exists tail.
      now rewrite <- Htail.
  - unfold absolute. now rewrite prefix_slash.
  - intros Hno. split.
    + rewrite normalize_url_before.
      pose proof (before_ref_app (absolute (String c rest)) "" Hno) as Hb.
      pose proof (before_from "?ref" (absolute (String c rest))) as Hsplit.
      destruct (from_cases "?ref" (absolute (String c rest))) as [Hnil|Hpre].
      * rewrite Hnil, str_app_nil_r in Hsplit. now rewrite <- Hsplit.
      * exfalso. clear Hb. revert Hno Hpre.
        generalize (absolute (String c rest)). intros s.
        induction s as [|x s IH]; cbn [str_in from].
        -- discriminate.
        -- destruct (String.prefix "?ref" (String x s)); [discriminate | exact IH].
    + intros X.
      rewrite str_app_cons, normalize_url_before, <- str_app_cons, absolute_app.
      f_equal. pose proof (before_ref_app (absolute (String c rest)) ("=" +:+ X) Hno) as Hb.
      exact Hb.
  - reflexivity.
Qed.

End CMFacts.

(** ** The API source *)

Module PublicoFacts.
Import Py PyFacts Publico.

Lemma contains_spec (n : PublicoNews) (l : list PublicoNews) :
  contains n l = true <-> exists m, m ∈ l /\ url m = url n.
Proof.
  unfold contains. rewrite existsb_exists. split.
  - intros (m & Hin & Heq). exists m. split; [now apply list_elem_of_In |].
    symmetry. now apply String.eqb_eq.
  - intros (m & Hin & Heq). exists m. split; [now apply list_elem_of_In |].
    apply String.eqb_eq. now symmetry.
Qed.

Lemma contains_app (n : PublicoNews) (l k : list PublicoNews) :
  contains n (l ++ k) = contains n l || contains n k.
Proof. apply existsb_app. Qed.

Lemma contains_self (n : PublicoNews) (l : list PublicoNews) :
  contains n (l ++ [n]) = true.
Proof.
  rewrite contains_app. apply orb_true_iff. right.
  cbn. unfold news_eqb. now rewrite String.eqb_refl.
Qed.

Lemma insert_present (n : PublicoNews) (l : list PublicoNews) :
  (exists m, m ∈ l /\ url m = url n) -> insert_if_absent n l = l.
Proof.
  intros Hin. apply contains_spec in Hin. unfold insert_if_absent. now rewrite Hin.
Qed.

Lemma insert_twice (n : PublicoNews) (l : list PublicoNews) :
  insert_if_absent n (insert_if_absent n l) = insert_if_absent n l.
Proof.
  unfold insert_if_absent at 2. destruct (contains n l) eqn:Hc; cbn [negb].
  - unfold insert_if_absent. now rewrite Hc.
  - unfold insert_if_absent. now rewrite contains_self, Hc.
Qed.

Lemma count_url_app (u : string) (l k : list PublicoNews) :
  count_url u (l ++ k) = (count_url u l + count_url u k)%nat.
Proof. unfold count_url. now rewrite filter_app, length_app. Qed.

Lemma count_url_zero (n : PublicoNews) (l : list PublicoNews) :
  contains n l = false <-> count_url (url n) l = 0%nat.
Proof.
  unfold count_url. induction l as [|m l IH]; [easy |].
  cbn [contains existsb] in *. rewrite filter_cons. unfold news_eqb at 1.
  rewrite String.eqb_sym. destruct (String.eqb (url m) (url n)) eqn:Heq.
  - rewrite decide_True by reflexivity. cbn. split; [discriminate | lia].
  - rewrite decide_False by discriminate. cbn [orb]. exact IH.
Qed.

Lemma count_url_self (n : PublicoNews) : count_url (url n) [n] = 1%nat.
Proof.
  unfold count_url. rewrite filter_cons, decide_True by apply String.eqb_refl.
  reflexivity.
Qed.

(** After the insert there is exactly one record with the URL, when there
    was at most one before. *)
Lemma insert_count (n : PublicoNews) (l : list PublicoNews) :
  (count_url (url n) l <= 1)%nat ->
  count_url (url n) (insert_if_absent n l) = 1%nat.
Proof.
  intros Hle. unfold insert_if_absent. destruct (contains n l) eqn:Hc; cbn [negb].
  - assert (count_url (url n) l <> 0%nat) as Hne; [| lia].
    intros Hz. apply count_url_zero in Hz. congruence.
  - apply count_url_zero in Hc. now rewrite count_url_app, Hc, count_url_self.
Qed.

Lemma insert_NoDup (n : PublicoNews) (l : list PublicoNews) :
  NoDup (map url l) -> NoDup (map url (insert_if_absent n l)).
Proof.
  intros Hnd. unfold insert_if_absent. destruct (contains n l) eqn:Hc; cbn [negb]; [exact Hnd |].
  rewrite map_app. apply NoDup_app. split; [exact Hnd |]. split.
  - intros u Hin Hu. apply list_elem_of_singleton in Hu as ->.
    apply list_elem_of_fmap in Hin as (m & Heq & Hin).
    assert (contains n l = true) as Ht; [| congruence].
    apply contains_spec. exists m. split; [exact Hin | now symmetry].
  - cbn. apply NoDup_singleton.
Qed.

Lemma list_snoc_split {A} (pre post tr0 : list A) (x y : A) :
  pre ++ x :: post = tr0 ++ [y] -> post = [] \/ x ∈ tr0.
Proof.
  destruct post as [|z post _] using rev_ind; [now left |]. right.
  change (pre ++ x :: post ++ [z]) with (pre ++ (x :: post) ++ [z]) in H.
  rewrite app_assoc in H. apply app_inj_tail in H as [<- _].
  apply elem_of_app. right. apply list_elem_of_here.
Qed.

Section Topic.
Import PublicoTopicSearch.
Context `{Env}.

Lemma set_found_news_id (s : self) : set_found_news (found_news s) s = s.
Proof. now destruct s. Qed.

Lemma add_news_insert (s : self) (data : Item) :
  add_news s data =
  (o <- deserialize_news data ;;
   Ok match o with
      | Some n => set_found_news (insert_if_absent n (found_news s)) s
      | None => s
      end).
Proof.
  unfold add_news, insert_if_absent. destruct (deserialize_news data) as [[n|]|e]; cbn [Py.bind];
    [| reflexivity | reflexivity].
  destruct (negb _); [reflexivity | now rewrite set_found_news_id].
Qed.

Variables (sd ed : Z) (I : list PublicoNews -> Prop).
Hypothesis I_insert :
  forall n l it d,
    I l -> deserialize_news it = Ok (Some n) ->
    parse_date (it !! "data") = Ok d -> sd <= d <= ed ->
    I (insert_if_absent n l).

Local Abbreviation old := (PublicoTopicSearch.old sd).
Local Abbreviation fresh := (PublicoTopicSearch.fresh sd).
Local Abbreviation inv := (PublicoTopicSearch.inv sd ed I).

Lemma for_items_inv (data : list Item) :
  forall stop s tr,
    inv s -> Forall fresh tr ->
    exists r s' tr',
      for_items data stop s tr = (r, s', tr') /\ inv s' /\
      page_number s' = page_number s /\
      ((Forall fresh tr' /\ (r = Ok stop \/ exists e, r = Raise e)) \/
       (r = Ok true /\
        exists tr0 item, tr' = tr0 ++ [Eval item] /\ Forall fresh tr0 /\ old item)).
Proof.
  induction data as [|item rest IH]; intros stop s tr Hinv Htr.
  - exists (Ok stop), s, tr.
    split; [reflexivity |]. split; [exact Hinv |]. split; [reflexivity |].
    left. split; [exact Htr | now left].
  - cbn [for_items].
    assert (forall e, Forall fresh (tr ++ [Eval item]) -> exists r s' tr',
               (Raise e, s, tr ++ [Eval item]) = (r, s', tr') /\ inv s' /\
               page_number s' = page_number s /\
               ((Forall fresh tr' /\ (r = Ok stop \/ exists e, r = Raise e)) \/
                (r = Ok true /\
                 exists tr0 item, tr' = tr0 ++ [Eval item] /\ Forall fresh tr0 /\ old item)))
      as Hraise.
    { intros e Hfresh. exists (Raise e), s, (tr ++ [Eval item]).
      split; [reflexivity |]. split; [exact Hinv |]. split; [reflexivity |].
      left. split; [exact Hfresh | right; now exists e]. }
    destruct Hinv as (Hs & He & HI).
    destruct (parse_date (item !! "data")) as [d|e] eqn:Hd.
    + destruct (d <? start_date s) eqn:Hlt.
      * exists (Ok true), s, (tr ++ [Eval item]).
        split; [reflexivity |]. split; [now repeat split |]. split; [reflexivity |].
        right. split; [reflexivity |]. exists tr, item.
        split; [reflexivity |]. split; [exact Htr |].
        exists d. split; [exact Hd |]. apply Z.ltb_lt in Hlt. lia.
      * apply Z.ltb_ge in Hlt.
        assert (Forall fresh (tr ++ [Eval item])) as Htr'.
        { apply Forall_app. split; [exact Htr |]. constructor; [| constructor].
          intros (d' & Hd' & Hold). rewrite Hd in Hd'. injection Hd' as <-. lia. }
        destruct (d >? end_date s) eqn:Hgt.
        -- apply IH; [now repeat split | exact Htr'].
        -- rewrite add_news_insert.
           destruct (deserialize_news item) as [[n|]|e] eqn:Hdes; cbn [Py.bind].
           ++ destruct (IH stop (set_found_news (insert_if_absent n (found_news s)) s)
                          (tr ++ [Eval item]))
                as (r & s' & tr' & Hrun & Hinv' & Hpage & Hcase); [| exact Htr' |].
              ** split; [exact Hs |]. split; [exact He |]. cbn.
                 eapply I_insert; [exact HI | exact Hdes | exact Hd |].
                 assert (~ d > ed)
                   by (rewrite <- He; intros Hc; apply Z.gtb_gt in Hc; congruence).
                 lia.
              ** exists r, s', tr'. split; [exact Hrun |]. split; [exact Hinv' |].
                 split; [exact Hpage | exact Hcase].
           ++ apply IH; [now repeat split | exact Htr'].
           ++ apply Hraise. exact Htr'.
    + apply Hraise.
      apply Forall_app. split; [exact Htr |]. constructor; [| constructor].
      intros (d' & Hd' & _). congruence.
Qed.

Lemma while_loop_inv (fuel : nat) :
  forall s tr,
    inv s -> Forall fresh tr ->
    let o := while_loop fuel false s tr in
    inv (self_of o) /\
    (Forall fresh (trace_of o) \/
     exists tr0 item s',
       o = Finished s' (tr0 ++ [Eval item]) /\ Forall fresh tr0 /\ old item).
Proof.
  induction fuel as [|fuel IH]; intros s tr Hinv Htr.
  - cbn. auto.
  - cbn [while_loop].
    assert (Forall fresh (tr ++ [Get (api_url s)])) as Htr'.
    { apply Forall_app. split; [exact Htr |]. constructor; [exact Logic.I | constructor]. }
    destruct (String.eqb _ _); [cbn; auto |].
    destruct (json_loads _) as [data|e]; [| cbn; auto].
    destruct (for_items_inv data false s _ Hinv Htr')
      as (r & s' & tr' & Hrun & Hinv' & _ & Hcase).
    rewrite Hrun. destruct Hcase as [[Hfresh [-> | (e & ->)]] | [-> Hstop]].
    + apply IH; [| exact Hfresh]. destruct Hinv' as (? & ? & ?). repeat split; auto.
    + cbn. auto.
    + cbn. split; [exact Hinv' |]. right.
      destruct Hstop as (tr0 & item & -> & Hfresh & Hold). now exists tr0, item, s'.
Qed.

End Topic.

Lemma contains_url (n1 n2 : PublicoNews) (l : list PublicoNews) :
  url n1 = url n2 -> contains n1 l = contains n2 l.
Proof. unfold contains, news_eqb. now intros ->. Qed.

Lemma insert_same_url (n1 n2 : PublicoNews) (l : list PublicoNews) :
  url n1 = url n2 ->
  insert_if_absent n2 (insert_if_absent n1 l) = insert_if_absent n1 l.
Proof.
  intros Hurl. unfold insert_if_absent at 1.
  rewrite <- (contains_url n1 n2) by exact Hurl.
  assert (contains n1 (insert_if_absent n1 l) = true) as ->; [| reflexivity].
  unfold insert_if_absent. destruct (contains n1 l) eqn:Hc; cbn [negb];
    [exact Hc | apply contains_self].
Qed.

Lemma insert_Forall (P : PublicoNews -> Prop) (n : PublicoNews) (l : list PublicoNews) :
  P n -> Forall P l -> Forall P (insert_if_absent n l).
Proof.
  intros Hn Hl. unfold insert_if_absent. destruct (negb _); [| exact Hl].
  apply Forall_app. split; [exact Hl | now constructor].
Qed.

Section Keywords.
Import PublicoKeywordsSearch.
Context `{Env}.

Lemma kw_set_found_news_id (s : self) : set_found_news (found_news s) s = s.
Proof. now destruct s. Qed.

Lemma kw_add_news_insert (s : self) (data : Item) :
  add_news s data =
  (o <- deserialize_news data ;;
   Ok match o with
      | Some n => set_found_news (insert_if_absent n (found_news s)) s
      | None => s
      end).
Proof.
  unfold add_news, insert_if_absent. destruct (deserialize_news data) as [[n|]|e]; cbn [Py.bind];
    [| reflexivity | reflexivity].
  destruct (negb _); [reflexivity | now rewrite kw_set_found_news_id].
Qed.

(** The trace does not steer the loop over the items. *)
Lemma kw_for_items_trace (data : list Item) (s : self) (tr tr' : list event) :
  fst (for_items data s tr) = fst (for_items data s tr').
Proof.
  revert s tr tr'. induction data as [|item rest IH]; intros s tr tr'.
  - reflexivity.
  - cbn [for_items]. destruct (add_news s item) as [s1|e]; [apply IH | reflexivity].
Qed.

Lemma kw_for_items_app (pre post : list Item) (s : self) (tr : list event) :
  for_items (pre ++ post) s tr =
  match for_items pre s tr with
  | (Ok _, s', tr') => for_items post s' tr'
  | (Raise e, s', tr') => (Raise e, s', tr')
  end.
Proof.
  revert s tr. induction pre as [|item pre IH]; intros s tr.
  - reflexivity.
  - cbn [for_items app]. destruct (add_news s item) as [s1|e]; [apply IH | reflexivity].
Qed.

End Keywords.

Section URL.
Import PublicoURLSearch.
Context `{Env}.

Lemma url_add_news_insert (s : self) (url_ : string) :
  add_news s url_ =
  (n <- build_from_url url_ ;;
   Ok {| found_news := insert_if_absent n (found_news s) |}).
Proof.
  unfold add_news, insert_if_absent. destruct (build_from_url url_) as [n|e]; cbn [Py.bind];
    [| reflexivity].
  destruct (negb _); [reflexivity | now destruct s].
Qed.

End URL.

Section Claims.
Context `{Env}.

(** C1.  The early stop of [PublicoTopicSearch.consume_api].  Take a run
    from a fresh search, however long, and an item that the loop body was
    entered with whose date is before [start_date]: nothing follows that
    item in what the run did (no item of the same page is evaluated, no
    page is requested) and the run is over.  And no record of
    [found_news] is older than [start_date]; the date of a record is the
    day of the [data] field it was deserialized from. *)
Theorem early_stop (fuel : nat) (s : PublicoTopicSearch.self) :
  (forall item n d,
      deserialize_news item = Ok (Some n) ->
      parse_date (item !! "data") = Ok d ->
      datetime_date (date n) = d) ->
  PublicoTopicSearch.found_news s = [] ->
  (forall pre item post d,
      trace_of (PublicoTopicSearch.consume_api fuel s) = pre ++ Eval item :: post ->
      parse_date (item !! "data") = Ok d ->
      d < PublicoTopicSearch.start_date s ->
      post = [] /\
      exists s', PublicoTopicSearch.consume_api fuel s = Finished s' (pre ++ [Eval item])) /\
  Forall (fun n => PublicoTopicSearch.start_date s <= datetime_date (date n))
         (PublicoTopicSearch.found_news
            (self_of (PublicoTopicSearch.consume_api fuel s))).
Proof.
  intros Hdate Hnew.
  set (sd := PublicoTopicSearch.start_date s).
  set (ed := PublicoTopicSearch.end_date s).
  set (P := fun n : PublicoNews => sd <= datetime_date (date n) <= ed).
  pose proof (while_loop_inv sd ed (Forall P)) as Hinv.
  specialize (Hinv ltac:(intros n l it d Hl Hdes Hd Hr; apply insert_Forall;
                         [unfold P; now rewrite (Hdate _ _ _ Hdes Hd) | exact Hl])).
  specialize (Hinv fuel s [] ltac:(repeat split; rewrite ?Hnew; constructor)
                   ltac:(constructor)).
  cbv zeta in Hinv. fold (PublicoTopicSearch.consume_api fuel s) in Hinv.
  destruct Hinv as [(_ & _ & Hall) Htrace]. split.
  - intros pre item post d Htr Hd Hlt.
    assert (PublicoTopicSearch.old sd item) as Hold by (exists d; auto).
    destruct Htrace as [Hfresh | (tr0 & item' & s' & Hrun & Hfresh & _)].
    + exfalso. rewrite Htr in Hfresh. apply Forall_app in Hfresh as [_ Hfresh].
      apply Forall_cons in Hfresh as [Hfresh _]. exact (Hfresh Hold).
    + rewrite Hrun in Htr. cbn [trace_of] in Htr. symmetry in Htr.
      destruct (list_snoc_split _ _ _ _ _ Htr) as [-> | Hin].
      * split; [reflexivity |]. exists s'. now rewrite Hrun, <- Htr.
      * exfalso. rewrite Forall_forall in Hfresh. exact (Hfresh _ Hin Hold).
  - eapply Forall_impl; [exact Hall |]. intros n [Hlo _]. exact Hlo.
Qed.

(** The records of a topic search, however long it has run, are in range. *)
Lemma topic_dates_in_range (fuel : nat) (s : PublicoTopicSearch.self) :
  (forall item n d,
      deserialize_news item = Ok (Some n) ->
      parse_date (item !! "data") = Ok d ->
      datetime_date (date n) = d) ->
  PublicoTopicSearch.found_news s = [] ->
  Forall (fun n => PublicoTopicSearch.start_date s <= datetime_date (date n)
                   <= PublicoTopicSearch.end_date s)
         (PublicoTopicSearch.found_news
            (self_of (PublicoTopicSearch.consume_api fuel s))).
Proof.
  intros Hdate Hnew.
  set (sd := PublicoTopicSearch.start_date s).
  set (ed := PublicoTopicSearch.end_date s).
  set (P := fun n : PublicoNews => sd <= datetime_date (date n) <= ed).
  pose proof (while_loop_inv sd ed (Forall P)) as Hinv.
  specialize (Hinv ltac:(intros n l it d Hl Hdes Hd Hr; apply insert_Forall;
                         [unfold P; now rewrite (Hdate _ _ _ Hdes Hd) | exact Hl])).
  specialize (Hinv fuel s [] ltac:(repeat split; rewrite ?Hnew; constructor)
                   ltac:(constructor)).
  cbv zeta in Hinv. fold (PublicoTopicSearch.consume_api fuel s) in Hinv.
  now destruct Hinv as [(_ & _ & Hall) _].
Qed.

(** Two inserts of records with one URL, in terms of the list. *)
Lemma insert_pair (n1 n2 : PublicoNews) (l : list PublicoNews) :
  url n1 = url n2 ->
  ((exists m, m ∈ l /\ url m = url n1) -> insert_if_absent n1 l = l) /\
  insert_if_absent n2 (insert_if_absent n1 l) = insert_if_absent n1 l /\
  ((count_url (url n1) l <= 1)%nat ->
   count_url (url n1) (insert_if_absent n1 l) = 1%nat).
Proof.
  intros Hurl. split; [apply insert_present |].
  split; [now apply insert_same_url | apply insert_count].
Qed.

(** C2, for the three Publico searches.  In each of them [add_news] leaves
    [found_news] as it is when a record with the URL of the new one is
    already there; and two items with one URL, added one after the other,
    add at most one record: the second [add_news] changes nothing, and
    where there was at most one record with that URL before there is
    exactly one after. *)
Theorem dedup_by_url :
  (forall (s : PublicoTopicSearch.self) d1 d2 n1 n2,
      deserialize_news d1 = Ok (Some n1) ->
      deserialize_news d2 = Ok (Some n2) ->
      url n1 = url n2 ->
      ((exists m, m ∈ PublicoTopicSearch.found_news s /\ url m = url n1) ->
       PublicoTopicSearch.add_news s d1 = Ok s) /\
      exists s1,
        PublicoTopicSearch.add_news s d1 = Ok s1 /\
        PublicoTopicSearch.add_news s1 d2 = Ok s1 /\
        ((count_url (url n1) (PublicoTopicSearch.found_news s) <= 1)%nat ->
         count_url (url n1) (PublicoTopicSearch.found_news s1) = 1%nat)) /\
  (forall (s : PublicoKeywordsSearch.self) d1 d2 n1 n2,
      deserialize_news d1 = Ok (Some n1) ->
      deserialize_news d2 = Ok (Some n2) ->
      url n1 = url n2 ->
      ((exists m, m ∈ PublicoKeywordsSearch.found_news s /\ url m = url n1) ->
       PublicoKeywordsSearch.add_news s d1 = Ok s) /\
      exists s1,
        PublicoKeywordsSearch.add_news s d1 = Ok s1 /\
        PublicoKeywordsSearch.add_news s1 d2 = Ok s1 /\
        ((count_url (url n1) (PublicoKeywordsSearch.found_news s) <= 1)%nat ->
         count_url (url n1) (PublicoKeywordsSearch.found_news s1) = 1%nat)) /\
  (forall (s : PublicoURLSearch.self) u1 u2 n1 n2,
      build_from_url u1 = Ok n1 ->
      build_from_url u2 = Ok n2 ->
      url n1 = url n2 ->
      ((exists m, m ∈ PublicoURLSearch.found_news s /\ url m = url n1) ->
       PublicoURLSearch.add_news s u1 = Ok s) /\
      exists s1,
        PublicoURLSearch.add_news s u1 = Ok s1 /\
        PublicoURLSearch.add_news s1 u2 = Ok s1 /\
        ((count_url (url n1) (PublicoURLSearch.found_news s) <= 1)%nat ->
         count_url (url n1) (PublicoURLSearch.found_news s1) = 1%nat)).
Proof.
  split; [| split].
  - intros s d1 d2 n1 n2 H1 H2 Hurl.
    destruct (insert_pair n1 n2 (PublicoTopicSearch.found_news s) Hurl)
      as (Hpresent & Htwice & Hcount).
    rewrite !add_news_insert, H1. cbn [Py.bind]. split.
    + intros Hin. rewrite Hpresent by exact Hin. now rewrite set_found_news_id.
    + eexists. split; [reflexivity |].
      rewrite add_news_insert, H2. cbn [Py.bind]. cbn. rewrite Htwice.
      split; [reflexivity | exact Hcount].
  - intros s d1 d2 n1 n2 H1 H2 Hurl.
    destruct (insert_pair n1 n2 (PublicoKeywordsSearch.found_news s) Hurl)
      as (Hpresent & Htwice & Hcount).
    rewrite !kw_add_news_insert, H1. cbn [Py.bind]. split.
    + intros Hin. rewrite Hpresent by exact Hin. now rewrite kw_set_found_news_id.
    + eexists. split; [reflexivity |].
      rewrite kw_add_news_insert, H2. cbn [Py.bind]. cbn. rewrite Htwice.
      split; [reflexivity | exact Hcount].
  - intros s u1 u2 n1 n2 H1 H2 Hurl.
    destruct (insert_pair n1 n2 (PublicoURLSearch.found_news s) Hurl)
      as (Hpresent & Htwice & Hcount).
    rewrite !url_add_news_insert, H1. cbn [Py.bind]. split.
    + intros Hin. rewrite Hpresent by exact Hin. now destruct s.
    + eexists. split; [reflexivity |].
      rewrite url_add_news_insert, H2. cbn [Py.bind]. cbn. rewrite Htwice.
      split; [reflexivity | exact Hcount].
Qed.

End Claims.

End PublicoFacts.

(** ** The validators *)

Module DecoratorsFacts.
Import Py Decorators.

Section Decorated.
Context `{Env}.
Context {W A : Type} (f : W -> res A * W).

(** The indices collected on line 21 are the positions of the values that
    are not true, in ascending order. *)
Lemma invalid_index_from_spec (valid_url : list bool) (i k : Z) :
  k ∈ invalid_index_from i valid_url <->
  exists j : nat, k = i + Z.of_nat j /\ valid_url !! j = Some false.
Proof.
  revert i. induction valid_url as [|v rest IH]; intros i.
  - cbn. split; [intros Hin; inversion Hin | intros (j & _ & Hj); discriminate].
  - cbn [invalid_index_from]. split.
    + intros Hin. destruct v; cbn [negb] in Hin.
      * apply IH in Hin as (j & -> & Hj). exists (S j). split; [lia | exact Hj].
      * apply elem_of_cons in Hin as [-> | Hin].
        -- exists 0%nat. split; [lia | reflexivity].
        -- apply IH in Hin as (j & -> & Hj). exists (S j). split; [lia | exact Hj].
    + intros (j & -> & Hj). destruct j as [|j].
      * cbn in Hj. injection Hj as ->. cbn [negb]. rewrite Z.add_0_r. apply list_elem_of_here.
      * cbn in Hj. assert (i + Z.of_nat (S j) ∈ invalid_index_from (i + 1) rest) as Hin.
        { apply IH. exists j. split; [lia | exact Hj]. }
        destruct v; cbn [negb]; [exact Hin | now apply list_elem_of_further].
Qed.

Lemma invalid_index_from_nil (valid_url : list bool) (i : Z) :
  invalid_index_from i valid_url = [] <-> Forall (fun v => v = true) valid_url.
Proof.
  revert i. induction valid_url as [|v rest IH]; intros i.
  - cbn. split; [constructor | reflexivity].
  - cbn [invalid_index_from]. destruct v; cbn [negb].
    + rewrite IH. split; [now constructor | intros Hall; now inversion Hall].
    + split; [discriminate | intros Hall; inversion Hall; discriminate].
Qed.

(** C7.  [validate_urls], on the batch [data] of a request.  More than 50
    URLs: a RequestError, with no shape check made and the view not called.
    At most 50 with some URL that does not validate: a RequestError whose
    message prints the list of the positions of all the URLs that do not
    validate, the view not called.  At most 50 that all validate: the
    view is called. *)
Theorem validate_urls_spec (request : gmap string jval) (w : W) :
  let data := to_list (request !! "url") in
  let offending := invalid_index_from 0 (map validate_url data) in
  ((length data > 50)%nat ->
   validate_urls f request w = ([], (Raise (RequestError too_many_urls), w))) /\
  ((length data <= 50)%nat ->
   (exists u, u ∈ data /\ validate_url u = false) ->
   validate_urls f request w =
     (map ValidateUrl data,
      (Raise (RequestError ("Invalid URLs provided at position: " +:+ repr_list offending)), w))) /\
  ((length data <= 50)%nat ->
   Forall (fun u => validate_url u = true) data ->
   validate_urls f request w = (map ValidateUrl data, f w)) /\
  (forall k, k ∈ offending <->
             exists (j : nat) u, k = Z.of_nat j /\ data !! j = Some u /\ validate_url u = false).
Proof.
  intros data offending. unfold validate_urls. fold data. fold offending.
  split; [| split; [| split]].
  - intros Hlen. destruct (Z.gtb_spec (Z.of_nat (length data)) 50) as [_|Hle]; [reflexivity | lia].
  - intros Hlen (u & Hin & Hbad).
    destruct (Z.gtb_spec (Z.of_nat (length data)) 50) as [Hgt|_]; [lia |].
    destruct offending as [|k rest] eqn:Hoff; [| reflexivity].
    exfalso. apply invalid_index_from_nil in Hoff.
    rewrite Forall_forall in Hoff. specialize (Hoff (validate_url u)).
    rewrite Hbad in Hoff. discriminate Hoff.
    apply list_elem_of_fmap. now exists u.
  - intros Hlen Hall.
    destruct (Z.gtb_spec (Z.of_nat (length data)) 50) as [Hgt|_]; [lia |].
    assert (offending = []) as ->; [| reflexivity].
    apply invalid_index_from_nil. now apply Forall_fmap.
  - intros k. unfold offending. rewrite invalid_index_from_spec. split.
    + intros (j & -> & Hj). rewrite list_lookup_fmap in Hj.
      destruct (data !! j) as [u|] eqn:Hu; [| discriminate].
      injection Hj as Hj. exists j, u. split; [lia | auto].
    + intros (j & u & -> & Hu & Hbad). exists j. split; [lia |].
      now rewrite list_lookup_fmap, Hu; cbn; rewrite Hbad.
Qed.


End Decorated.
End DecoratorsFacts.

(** ** Across the sources *)

Module Engine.
Import Py PyFacts.

Section Sources.
Context {cm : CM.Env} {api : Publico.Env}.

(** C3, for the two searches that filter by date.  Every record of a topic
    search of the API lies in the closed range of the query, by the day of
    the [data] field it was deserialized from; every record of the scraped
    search lies strictly between the two ends of the range. *)
Theorem accepted_dates_in_range (fuel : nat)
  (s : Publico.PublicoTopicSearch.self) (self : CM.CMTopicSearch) :
  (forall item n d,
      Publico.deserialize_news item = Ok (Some n) ->
      Publico.parse_date (item !! "data") = Ok d ->
      datetime_date (Publico.date n) = d) ->
  Publico.PublicoTopicSearch.found_news s = [] ->
  CM.found_news self = [] ->
  Forall (fun n => Publico.PublicoTopicSearch.start_date s
                   <= datetime_date (Publico.date n)
                   <= Publico.PublicoTopicSearch.end_date s)
         (Publico.PublicoTopicSearch.found_news
            (Publico.self_of (Publico.PublicoTopicSearch.consume_api fuel s))) /\
  Forall (fun n => CM.start_date self < CM.date n < CM.end_date self)
         (CM.news_of (CM.search fuel self)).
Proof.
  intros Hdate Hnew Hcm. split.
  - now apply PublicoFacts.topic_dates_in_range.
  - unfold CM.search.
    eapply CMFacts.loop_Forall; [| reflexivity | reflexivity | rewrite Hcm; constructor].
    intros self' article n Hs He Hart.
    apply CMFacts.article_news_Some in Hart
      as (a & url0 & d & dtext & l & tree & _ & _ & _ & _ & _ & _ & _ & Hr & _).
    now rewrite <- Hs, <- He.
Qed.

(** C5, as the code has it.  In the searches of the API an item that does
    not deserialize into a PublicoNews is skipped by [add_news], and in the
    keyword search the page is worked through as if the item were not on
    it.  The scraped search has no such recovery: an article without a
    link, or that reaches the date and has none, or that reaches the lead
    and has none, raises IndexError; and an exception raised for an article
    ends the page, the iteration and the run with the records appended so
    far, the articles after it unprocessed. *)
Theorem item_parse_failure :
  (forall data,
      Publico.deserialize_news data = Ok None ->
      (forall s, Publico.PublicoTopicSearch.add_news s data = Ok s) /\
      (forall s, Publico.PublicoKeywordsSearch.add_news s data = Ok s) /\
      (forall pre post s tr,
          fst (Publico.PublicoKeywordsSearch.for_items (pre ++ data :: post) s tr) =
          fst (Publico.PublicoKeywordsSearch.for_items (pre ++ post) s tr))) /\
  (forall self article,
      CM.h2_a article = [] -> CM.article_news self article = Raise IndexError) /\
  (forall self article a url0 url_,
      CM.h2_a article !! 0%nat = Some a ->
      CM.attrib a !! "data-name" = Some url0 ->
      CM.normalize_url url0 = Ok url_ ->
      CM.denylisted url_ = false ->
      (CM.span_dateTime article = [] ->
       CM.article_news self article = Raise IndexError) /\
      (forall d dtext news_date,
          CM.span_dateTime article !! 0%nat = Some d ->
          CM.el_text d = Some dtext ->
          CM.datetime_from_string (replace "|" "" dtext) = Ok news_date ->
          CM.start_date self < news_date < CM.end_date self ->
          CM.span_lead article = [] ->
          CM.article_news self article = Raise IndexError)) /\
  (forall self article rest e,
      CM.article_news self article = Raise e ->
      CM.for_articles (article :: rest) self = (Raise e, self) /\
      forall l tree fuel,
        String.eqb (CM.requests_get (CM.listing_url self (CM.index l))) CRLF
        || String.eqb (CM.requests_get (CM.listing_url self (CM.index l))) EmptyString
        = false ->
        CM.html_fromstring (CM.requests_get (CM.listing_url self (CM.index l))) = Ok tree ->
        CM.articles tree = article :: rest ->
        CM.loop (S fuel) l self = CM.Failed e self).
Proof.
  split; [| split; [| split]].
  - intros data Hdes. split; [| split].
    + intros s. now rewrite PublicoFacts.add_news_insert, Hdes.
    + intros s. now rewrite PublicoFacts.kw_add_news_insert, Hdes.
    + intros pre post s tr. rewrite !PublicoFacts.kw_for_items_app.
      destruct (Publico.PublicoKeywordsSearch.for_items pre s tr) as [[[u|e] s'] tr'];
        [| reflexivity].
      cbn [Publico.PublicoKeywordsSearch.for_items].
      rewrite PublicoFacts.kw_add_news_insert, Hdes. cbn [Py.bind].
      apply PublicoFacts.kw_for_items_trace.
  - intros self article Hlink. unfold CM.article_news. now rewrite Hlink.
  - intros self article a url0 url_ Ha Hu Hn Hdeny.
    apply CMFacts.getitem_Ok in Ha. apply CMFacts.dict_getitem_Ok in Hu. split.
    + intros Hdate. unfold CM.article_news.
      rewrite Ha. cbn [Py.bind]. rewrite Hu. cbn [Py.bind]. rewrite Hn. cbn [Py.bind].
      now rewrite Hdeny, Hdate.
    + intros d dtext news_date Hd Ht Hdate [Hlo Hhi] Hlead. unfold CM.article_news.
      apply CMFacts.getitem_Ok in Hd.
      rewrite Ha. cbn [Py.bind]. rewrite Hu. cbn [Py.bind]. rewrite Hn. cbn [Py.bind].
      rewrite Hdeny, Hd. cbn [Py.bind]. rewrite Ht. cbn [Py.bind].
      rewrite Hdate. cbn [Py.bind].
      apply Z.ltb_lt in Hlo, Hhi. rewrite Hlo, Hhi. cbn [andb negb].
      now rewrite Hlead.
  - intros self article rest e Hart.
    assert (CM.for_articles (article :: rest) self = (Raise e, self)) as Hpage
      by (cbn [CM.for_articles]; now rewrite Hart).
    split; [exact Hpage |].
    intros l tree fuel Hnonempty Htree Harts.
    cbn [CM.loop]. unfold CM.step. now rewrite Hnonempty, Htree, Harts, Hpage.
Qed.

End Sources.

Import Samples.

(** The dates of the sample API are the days of the sample records. *)
Lemma pub_deserialize_date (item : gmap string string) (n : Publico.PublicoNews) (d : Z) :
  pub_deserialize_news item = Ok (Some n) ->
  pub_parse_date (item !! "data") = Ok d ->
  datetime_date (Publico.date n) = d.
Proof.
  unfold pub_deserialize_news. intros Hdes Hd. rewrite Hd in Hdes.
  destruct (item !! "url") as [u|]; [| discriminate Hdes].
  injection Hdes as <-. cbn [Publico.date]. unfold datetime_date, midnight, day.
  rewrite Z.div_mul by discriminate. lia.
Defined.

(** The early stop on the sample API: the item of December on the second
    page ends the run; the item after it and the third page are left. *)
Lemma early_stop_witness :
  pub_parse_date (pub_item_old !! "data") = Ok 737760 /\
  737760 < Publico.PublicoTopicSearch.start_date pub_topic /\
  exists s',
    @Publico.PublicoTopicSearch.consume_api pub_env 5 pub_topic =
    Publico.Finished s' (pub_trace_to_old ++ [Publico.Eval pub_item_old]).
Proof.
  split; [reflexivity |]. split; [reflexivity |].
  refine (proj2 (proj1 (@PublicoFacts.early_stop pub_env 5 pub_topic
                          pub_deserialize_date eq_refl)
                   pub_trace_to_old pub_item_old [] 737760 _ _ _)).
  - vm_compute. reflexivity.
  - reflexivity.
  - reflexivity.
Defined.

(** The article whose detail page answers 404 on the sample site. *)
Lemma item_fetch_failure_witness :
  CM.status_code
    (@CM.send_post_then_get_html_string cm_env CM.login_url (@CM.login_payload cm_env)
       "https://www.cmjornal.pt/sociedade/detalhe/gone") <> 200 /\
  @CM.for_articles cm_env ([] ++ art_gone :: [art_a]) (cm_search "gone") =
  @CM.for_articles cm_env ([] ++ [art_a]) (cm_search "gone").
Proof.
  split; [vm_compute; discriminate |].
  refine (proj1 (@CMFacts.item_fetch_failure_skips_item cm_env art_gone
                   (anchor "/sociedade/detalhe/gone?ref=Mais")
                   (span "10/01/2021|") (span "lead gone")
                   "/sociedade/detalhe/gone?ref=Mais"
                   "https://www.cmjornal.pt/sociedade/detalhe/gone"
                   "10/01/2021|" (midnight 737800)
                   _ _ _ _ _ _ _ _ _ [] [art_a] (cm_search "gone") _)).
  - reflexivity.
  - vm_compute. reflexivity.
  - vm_compute. reflexivity.
  - vm_compute. reflexivity.
  - reflexivity.
  - reflexivity.
  - vm_compute. reflexivity.
  - reflexivity.
  - vm_compute. discriminate.
  - split; reflexivity.
Defined.

(** The two filtering searches on the sample worlds. *)
Lemma accepted_dates_witness :
  Forall (fun n => 737791 <= datetime_date (Publico.date n) <= 737821)
         (Publico.PublicoTopicSearch.found_news
            (Publico.self_of (@Publico.PublicoTopicSearch.consume_api pub_env 5 pub_topic))) /\
  Forall (fun n => midnight 737791 < CM.date n < midnight 737821)
         (CM.news_of (@CM.search cm_env 3 (cm_search "mixed"))).
Proof.
  exact (@accepted_dates_in_range cm_env pub_env 5 pub_topic (cm_search "mixed")
           pub_deserialize_date eq_refl eq_refl).
Defined.

(** The scraped search keeps both of two articles with one URL. *)
Lemma cm_search_keeps_duplicates :
  map CM.url (CM.news_of (@CM.search cm_env 2 (cm_search "dup"))) =
  ["https://www.cmjornal.pt/sociedade/detalhe/a";
   "https://www.cmjornal.pt/sociedade/detalhe/a"].
Proof. vm_compute. reflexivity. Qed.

(** The keyword search accepts an item of June into a search for January. *)
Lemma keywords_accepts_out_of_range :
  ~ Forall (fun n => Publico.PublicoKeywordsSearch.start_date pub_keywords
                     <= datetime_date (Publico.date n)
                     <= Publico.PublicoKeywordsSearch.end_date pub_keywords)
           (Publico.PublicoKeywordsSearch.found_news
              (Publico.self_of
                 (@Publico.PublicoKeywordsSearch.consume_api pub_env 3 pub_keywords))).
Proof.
  intros Hall.
  remember (Publico.PublicoKeywordsSearch.found_news
              (Publico.self_of
                 (@Publico.PublicoKeywordsSearch.consume_api pub_env 3 pub_keywords)))
    as news eqn:Hrun.
  vm_compute in Hrun. subst news.
  apply Forall_cons in Hall as [[_ Hhi] _].
  vm_compute in Hhi. apply Hhi. reflexivity.
Qed.

(** An article without a link ends the scraped search, although the
    article after it on the page is one the search accepts. *)
Lemma cm_search_aborts_on_missing_link :
  CM.articles (listing [art_nolink; art_a]) = [art_nolink; art_a] /\
  @CM.search cm_env 2 (cm_search "broken") = CM.Failed IndexError (cm_search "broken") /\
  length (CM.found_news (snd (@CM.for_articles cm_env [art_a] (cm_search "broken")))) = 1%nat.
Proof. repeat split; vm_compute; reflexivity. Qed.

(** The decorators on sample requests. *)
Example validate_urls_51 :
  @Decorators.validate_urls dec_env nat nat counting_view
    (request_urls (repeat "https://www.publico.pt/a" 51)) 0%nat =
  ([], (Raise (RequestError Decorators.too_many_urls), 0%nat)).
Proof. vm_compute. reflexivity. Qed.

Example validate_urls_positions :
  snd (@Decorators.validate_urls dec_env nat nat counting_view
         (request_urls ["https://www.publico.pt/a"; "x"; "https://www.publico.pt/b"; "y"])
         0%nat) =
  (Raise (RequestError "Invalid URLs provided at position: [1, 3]"), 0%nat).
Proof. vm_compute. reflexivity. Qed.

Example validate_dates_january :
  @Decorators.validate_dates dec_env nat nat counting_view
    (request_dates "01/01/2021" "31/01/2021") 0%nat = (Ok 1%nat, 1%nat).
Proof. vm_compute. reflexivity. Qed.

Example validate_dates_reversed :
  @Decorators.validate_dates dec_env nat nat counting_view
    (request_dates "31/01/2021" "01/01/2021") 0%nat =
  (Raise (RequestError Decorators.start_after_end), 0%nat).
Proof. vm_compute. reflexivity. Qed.

(** The sample site: two authors on the page, one name in the record. *)
Example authors_first_of_two :
  map CM.authors (CM.news_of (@CM.search cm_env 2 (cm_search "mixed"))) =
  [[CM.PyStr "Ana"]; [CM.PyElements []]].
Proof. vm_compute. reflexivity. Qed.

Example search_returns_on_empty_page :
  exists news, @CM.search cm_env 2 (cm_search "one") = CM.Returned (CM.EmptyPage "") news.
Proof. eexists. vm_compute. reflexivity. Qed.


End Engine.

(** * Further properties of the searches and the validators *)

(** ** The scraped source, continued *)

Module CMMore.
Import Py PyFacts CM CMFacts.

(** [s.split("/")] one character on. *)
Lemma split_go_slash (cur : string) (c : ascii) (s : string) :
  split_go "/" 0 cur (String c s) =
  if Ascii.eqb c "/" then cur :: split_go "/" 0 EmptyString s
  else split_go "/" 0 (cur +:+ String c EmptyString) s.
Proof.
  cbn [split_go]. rewrite prefix_slash. reflexivity.
Qed.

Lemma str_in_slash_cons (c : ascii) (s : string) :
  str_in "/" (String c s) = Ascii.eqb c "/" || str_in "/" s.
Proof.
  cbn [str_in]. rewrite prefix_slash. now destruct (Ascii.eqb c "/").
Qed.

(** A piece without a slash, then a slash: the piece is split off. *)
Lemma split_go_piece (seg rest cur : string) :
  str_in "/" seg = false ->
  split_go "/" 0 cur (seg +:+ "/" +:+ rest) =
  (cur +:+ seg) :: split_go "/" 0 EmptyString rest.
Proof.
  revert cur. induction seg as [|c seg IH]; intros cur Hno.
  - rewrite str_app_nil_l, str_app_nil_r, str_app_cons, str_app_nil_l.
    now rewrite split_go_slash.
  - rewrite str_in_slash_cons in Hno. apply orb_false_iff in Hno as [Hc Hseg].
    rewrite str_app_cons, split_go_slash, Hc, IH by exact Hseg.
    now rewrite str_app_assoc.
Qed.

(** A last piece without a slash. *)
Lemma split_go_last (seg cur : string) :
  str_in "/" seg = false -> split_go "/" 0 cur seg = [cur +:+ seg].
Proof.
  revert cur. induction seg as [|c seg IH]; intros cur Hno.
  - now rewrite str_app_nil_r.
  - rewrite str_in_slash_cons in Hno. apply orb_false_iff in Hno as [Hc Hseg].
    rewrite split_go_slash, Hc, IH by exact Hseg. now rewrite str_app_assoc.
Qed.

(** The fourth piece of a URL of the site is its first path segment. *)
Lemma section_of_site_url (seg rest : string) :
  str_in "/" seg = false ->
  getitem (split "/" ("https://www.cmjornal.pt/" +:+ seg +:+ "/" +:+ rest)) 3 = Ok seg.
Proof.
  intros Hno. unfold split.
  change ("https://www.cmjornal.pt/" +:+ seg +:+ "/" +:+ rest)
    with ("https:" +:+ "/" +:+ ("" +:+ "/" +:+ ("www.cmjornal.pt" +:+ "/" +:+
            (seg +:+ "/" +:+ rest)))).
  rewrite !split_go_piece by (exact Hno || reflexivity).
  reflexivity.
Qed.

Section Run.
Context `{Env}.

(** The fields of a record that are computed from its URL and from its
    detail page. *)
Lemma article_news_fields (self : CMTopicSearch) (article : Article) (n : CMNews) :
  article_news self article = Ok (Some n) ->
  exists url0 section tree h text0,
    normalize_url url0 = Ok (url n) /\
    getitem (split "/" (url n)) 3 = Ok section /\
    rubric n = capitalize section /\
    is_opinion n = str_in "opiniao" (url n) /\
    html_fromstring
      (response_text (send_post_then_get_html_string login_url login_payload (url n)))
    = Ok tree /\
    centro_h1 tree !! 0%nat = Some h /\
    normalize_str (el_text h) = Ok (title n) /\
    normalize_str (Some (join " " (texto_container tree))) = Ok text0 /\
    text n = before "Para aceder a todos os Exclusivos CM" (unescape text0).
Proof.
  unfold article_news. intros Hrun.
  bind_ok Hrun Ea. bind_ok Hrun Eu. bind_ok Hrun En.
  destruct (denylisted a1) eqn:Edeny; [discriminate Hrun |].
  bind_ok Hrun Ed. bind_ok Hrun Et. bind_ok Hrun Edate.
  destruct (negb _) eqn:Erange in Hrun; [discriminate Hrun |].
  bind_ok Hrun El.
  destruct (negb _) eqn:Estatus in Hrun; [discriminate Hrun |].
  bind_ok Hrun Etree. bind_ok Hrun Esec. bind_ok Hrun Eh.
  bind_ok Hrun Etitle. bind_ok Hrun Etext. bind_ok Hrun Ecut.
  rewrite split_head in Ecut. injection Ecut as <-.
  injection Hrun as <-. cbn [url rubric is_opinion title text].
  apply getitem_Ok in Eh.
  exists a0, a7, a6, a8, a10. repeat split; assumption || reflexivity.
Qed.

(** The records a run has, whatever its length, from the fresh search of a
    topic. *)
Abbreviation records fuel topic_ start_ end_ :=
  (news_of (search fuel {| topic := topic_; start_date := start_;
                           end_date := end_; found_news := [] |})).

(** X1.  No record of [search] has a denylisted URL: none of the markers
    [interativa], [multimedia], [perguntas] occurs in the URL of a record. *)
Theorem records_not_denylisted (fuel : nat) (topic_ : string) (start_ end_ : Z) :
  Forall
    (fun n =>
       str_in "interativa" (url n) = false /\
       str_in "multimedia" (url n) = false /\
       str_in "perguntas" (url n) = false)
    (records fuel topic_ start_ end_).
Proof.
  unfold search. eapply loop_Forall; [| reflexivity | reflexivity | constructor].
  intros self article n _ _ Hart.
  apply article_news_Some in Hart
    as (a & url0 & d & dtext & l & tree & _ & _ & _ & Hdeny & _).
  unfold denylisted, denylist in Hdeny. cbn [existsb] in Hdeny.
  repeat (apply orb_false_iff in Hdeny as [? Hdeny]). auto.
Qed.

(** X2.  The URL of every record is a normalized one: it is the result of
    [normalize_url] on the [data-name] of a link, and [?ref] does not occur
    in it. *)
Theorem records_url_without_ref (fuel : nat) (topic_ : string) (start_ end_ : Z) :
  Forall
    (fun n =>
       str_in "?ref" (url n) = false /\
       exists url0, normalize_url url0 = Ok (url n))
    (records fuel topic_ start_ end_).
Proof.
  unfold search. eapply loop_Forall; [| reflexivity | reflexivity | constructor].
  intros self article n _ _ Hart.
  apply article_news_Some in Hart
    as (a & url0 & d & dtext & l & tree & _ & _ & Hn & _).
  split; [| now exists url0].
  destruct url0 as [|c rest]; [discriminate Hn |].
  rewrite normalize_url_before in Hn. injection Hn as <-. apply str_in_before.
Qed.

(** X3.  The text of every record stops in front of the paywall notice:
    [Para aceder a todos os Exclusivos CM] does not occur in it. *)
Theorem records_text_without_notice (fuel : nat) (topic_ : string) (start_ end_ : Z) :
  Forall
    (fun n => str_in "Para aceder a todos os Exclusivos CM" (text n) = false)
    (records fuel topic_ start_ end_).
Proof.
  unfold search. eapply loop_Forall; [| reflexivity | reflexivity | constructor].
  intros self article n _ _ Hart.
  apply article_news_fields in Hart
    as (url0 & section & tree & h & text0 & _ & _ & _ & _ & _ & _ & _ & _ & ->).
  apply str_in_before.
Qed.

(** X4.  Section and opinion flag of a record come from its URL alone.  The
    flag says whether [opiniao] occurs in the URL; the rubric is what
    [str.capitalize] makes of the fourth piece of the URL cut at its
    slashes, so for a URL [https://www.cmjornal.pt/<seg>/<rest>] of the
    site it is [<seg>] capitalized. *)
Theorem records_rubric_from_url (fuel : nat) (topic_ : string) (start_ end_ : Z) :
  Forall
    (fun n =>
       is_opinion n = str_in "opiniao" (url n) /\
       (exists section,
           split "/" (url n) !! 3%nat = Some section /\
           rubric n = capitalize section) /\
       (forall seg rest,
           url n = "https://www.cmjornal.pt/" +:+ seg +:+ "/" +:+ rest ->
           str_in "/" seg = false ->
           rubric n = capitalize seg))
    (records fuel topic_ start_ end_).
Proof.
  unfold search. eapply loop_Forall; [| reflexivity | reflexivity | constructor].
  intros self article n _ _ Hart.
  apply article_news_fields in Hart
    as (url0 & section & tree & h & text0 & _ & Hsec & Hrub & Hop & _).
  split; [exact Hop |]. split.
  - exists section. split; [now apply getitem_Ok | exact Hrub].
  - intros seg rest Hurl Hno. rewrite Hurl, section_of_site_url in Hsec by exact Hno.
    injection Hsec as <-. exact Hrub.
Qed.

(** The dates of [self] are all a page reads of it. *)
Lemma for_articles_dates (arts : list Article) (self : CMTopicSearch) :
  start_date (snd (for_articles arts self)) = start_date self /\
  end_date (snd (for_articles arts self)) = end_date self.
Proof.
  pose proof (for_articles_Forall (fun _ => True) (start_date self) (end_date self)
                (fun _ _ _ _ _ _ => I) arts self eq_refl eq_refl) as Hinv.
  destruct Hinv as (_ & Hs & He & _); [now apply Forall_forall | auto].
Qed.

(** An article that is a [continue] for every search with the dates of
    [self] can be taken off the page. *)
Lemma for_articles_skip (article : Article) (self : CMTopicSearch) :
  (forall s, start_date s = start_date self -> end_date s = end_date self ->
             article_news s article = Ok None) ->
  forall pre post,
    for_articles (pre ++ article :: post) self = for_articles (pre ++ post) self.
Proof.
  intros Hskip pre post. rewrite !for_articles_app.
  destruct (for_articles_dates pre self) as [Hs He].
  destruct (for_articles pre self) as [[u|e] s']; cbn [snd] in Hs, He; [| reflexivity].
  cbn [for_articles]. now rewrite (Hskip s' Hs He).
Qed.

(** X5.  The denylist is tested before anything else of an article is
    read: an article with a denylisted URL is skipped whatever its date,
    its lead and its detail page are, also when the date or the lead is
    missing, and its page is processed as if the article were not on it. *)
Theorem denylisted_article_skipped (article : Article) (a : Element)
  (url0 url_ : string) :
  h2_a article !! 0%nat = Some a ->
  attrib a !! "data-name" = Some url0 ->
  normalize_url url0 = Ok url_ ->
  denylisted url_ = true ->
  forall self,
    article_news self article = Ok None /\
    forall pre post,
      for_articles (pre ++ article :: post) self = for_articles (pre ++ post) self.
Proof.
  intros Ha Hu Hn Hdeny.
  assert (forall s, article_news s article = Ok None) as Hskip.
  { intros s. unfold article_news.
    apply getitem_Ok in Ha. apply dict_getitem_Ok in Hu.
    rewrite Ha. cbn [Py.bind]. rewrite Hu. cbn [Py.bind]. rewrite Hn. cbn [Py.bind].
    now rewrite Hdeny. }
  intros self. split; [apply Hskip |]. apply for_articles_skip. auto.
Qed.

(** X6.  The date is tested before the lead is read and before the detail
    page is requested: an article whose date is not strictly between the
    two ends of the range, the ends themselves included, is skipped
    whatever its lead and its detail page are, and its page is processed
    as if the article were not on it. *)
Theorem out_of_range_article_skipped (article : Article) (a d : Element)
  (url0 url_ dtext : string) (news_date : Z) :
  h2_a article !! 0%nat = Some a ->
  attrib a !! "data-name" = Some url0 ->
  normalize_url url0 = Ok url_ ->
  denylisted url_ = false ->
  span_dateTime article !! 0%nat = Some d ->
  el_text d = Some dtext ->
  datetime_from_string (replace "|" "" dtext) = Ok news_date ->
  forall self,
    news_date <= start_date self \/ end_date self <= news_date ->
    article_news self article = Ok None /\
    forall pre post,
      for_articles (pre ++ article :: post) self = for_articles (pre ++ post) self.
Proof.
  intros Ha Hu Hn Hdeny Hd Ht Hdate self Hout.
  assert (forall s, start_date s = start_date self -> end_date s = end_date self ->
                    article_news s article = Ok None) as Hskip.
  { intros s Hs He. unfold article_news.
    apply getitem_Ok in Ha, Hd. apply dict_getitem_Ok in Hu.
    rewrite Ha. cbn [Py.bind]. rewrite Hu. cbn [Py.bind]. rewrite Hn. cbn [Py.bind].
    rewrite Hdeny, Hd. cbn [Py.bind]. rewrite Ht. cbn [Py.bind].
    rewrite Hdate. cbn [Py.bind]. rewrite Hs, He.
    assert ((start_date self <? news_date) && (news_date <? end_date self) = false) as ->;
      [| reflexivity].
    apply andb_false_iff. destruct Hout as [Hlo | Hhi]; [left | right];
      apply Z.ltb_ge; assumption. }
  split; [now apply Hskip |]. now apply for_articles_skip.
Qed.

(** A page only appends. *)
Lemma for_articles_appends (arts : list Article) (self : CMTopicSearch) :
  exists added,
    found_news (snd (for_articles arts self)) = found_news self ++ added /\
    (length added <= length arts)%nat.
Proof.
  revert self. induction arts as [|article rest IH]; intros self.
  - exists []. cbn. split; [now rewrite app_nil_r | lia].
  - cbn [for_articles]. destruct (article_news self article) as [[n|]|e].
    + destruct (IH (append n self)) as (added & Heq & Hlen). exists (n :: added).
      rewrite Heq. cbn. split; [now rewrite <- app_assoc | lia].
    + destruct (IH self) as (added & Heq & Hlen). exists added. split; [exact Heq | cbn; lia].
    + exists []. cbn. split; [now rewrite app_nil_r | lia].
Qed.

(** X7.  [search] only appends: whatever the records of [self] when it is
    called and however the run goes on or ends (also when it raises), the
    records it had are still there, in front and in their order. *)
Theorem search_appends (fuel : nat) (self : CMTopicSearch) :
  exists added, news_of (search fuel self) = found_news self ++ added.
Proof.
  unfold search. generalize {| index := 0; full_stop := false |}.
  revert self. induction fuel as [|fuel IH]; intros self l.
  - exists []. cbn. now rewrite app_nil_r.
  - cbn [loop]. unfold step.
    destruct (_ || _); [exists []; cbn; now rewrite app_nil_r |].
    destruct (html_fromstring _) as [tree|e]; [| exists []; cbn; now rewrite app_nil_r].
    destruct (for_articles_appends (articles tree) self) as (added & Heq & _).
    destruct (for_articles (articles tree) self) as [[u|e] self']; cbn [snd] in Heq.
    + destruct (full_stop l); [exists added; exact Heq |].
      destruct (IH self' {| index := index l + 6; full_stop := false |}) as (more & Hmore).
      exists (added ++ more). now rewrite Hmore, Heq, <- app_assoc.
    + exists added. exact Heq.
Qed.

End Run.
End CMMore.

(** ** The API source, continued *)

Module PublicoMore.
Import Py PyFacts Publico PublicoFacts.

Lemma insert_appends (n : PublicoNews) (l : list PublicoNews) :
  exists added, insert_if_absent n l = l ++ added.
Proof.
  unfold insert_if_absent. destruct (negb _); [now exists [n] |].
  exists []. now rewrite app_nil_r.
Qed.

Lemma requested_app (tr tr' : list event) :
  requested (tr ++ tr') = requested tr ++ requested tr'.
Proof.
  induction tr as [|[u|item] tr IH]; cbn; [reflexivity | now rewrite IH | exact IH].
Qed.

Lemma map_seq_S {A} (f : nat -> A) (m : nat) :
  map f (seq 0 (S m)) = f 0%nat :: map (fun k => f (S k)) (seq 0 m).
Proof. cbn [seq map]. f_equal. rewrite <- seq_shift. apply map_map. Qed.

Section Topic.
Import PublicoTopicSearch.
Context `{Env}.

(** [add_news] changes nothing of [self] but [found_news]. *)
Lemma add_news_frame (s s1 : self) (data : Item) :
  add_news s data = Ok s1 -> s1 = set_found_news (found_news s1) s.
Proof.
  rewrite add_news_insert. destruct (deserialize_news data) as [[n|]|e]; cbn [Py.bind];
    intros Heq; try discriminate Heq; injection Heq as <-.
  - reflexivity.
  - now rewrite set_found_news_id.
Qed.

(** A page changes nothing of [self] but [found_news] and requests no
    page. *)
Lemma for_items_frame (data : list Item) :
  forall stop s tr r s' tr',
    for_items data stop s tr = (r, s', tr') ->
    s' = set_found_news (found_news s') s /\ requested tr' = requested tr.
Proof.
  induction data as [|item rest IH]; intros stop s tr r s' tr' Hrun.
  - injection Hrun as <- <- <-. now rewrite set_found_news_id.
  - cbn [for_items] in Hrun.
    assert (requested (tr ++ [Eval item]) = requested tr) as Htr
      by (rewrite requested_app; cbn; apply app_nil_r).
    destruct (parse_date (item !! "data")) as [d|e].
    + destruct (d <? start_date s).
      * injection Hrun as <- <- <-. now rewrite set_found_news_id.
      * destruct (d >? end_date s).
        -- apply IH in Hrun as [Hs Hreq]. split; [exact Hs | congruence].
        -- destruct (add_news s item) as [s1|e] eqn:Hadd.
           ++ apply IH in Hrun as [Hs Hreq]. apply add_news_frame in Hadd.
              split; [| congruence]. rewrite Hs, Hadd. reflexivity.
           ++ injection Hrun as <- <- <-. now rewrite set_found_news_id.
    + injection Hrun as <- <- <-. now rewrite set_found_news_id.
Qed.

(** X8.  The pages of the topic search are requested one after the other: the
    requests of a run are those for the pages [page_number],
    [page_number + 1], ... of the query, none left out and none made
    twice, at most one for each iteration of the loop. *)
Theorem topic_pages_in_order (fuel : nat) (s : self) :
  exists m : nat,
    (m <= fuel)%nat /\
    requested (trace_of (consume_api fuel s)) =
    map (fun k : nat => api_url (set_page_number (page_number s + Z.of_nat k) s))
        (seq 0 m).
Proof.
  unfold consume_api.
  assert (forall stop s tr,
             exists m : nat,
               (m <= fuel)%nat /\
               requested (trace_of (while_loop fuel stop s tr)) =
               requested tr ++
               map (fun k : nat => api_url (set_page_number (page_number s + Z.of_nat k) s))
                   (seq 0 m)) as Hgen.
  { clear s. induction fuel as [|fuel IH]; intros stop s tr.
    - exists 0%nat. cbn. split; [lia | now rewrite app_nil_r].
    - cbn [while_loop].
      assert (api_url s = api_url (set_page_number (page_number s + Z.of_nat 0) s)) as Hhere
        by (unfold api_url; cbn; now rewrite Z.add_0_r).
      assert (requested (tr ++ [Get (api_url s)]) = requested tr ++ [api_url s]) as Hget
        by (now rewrite requested_app).
      assert (forall tr1,
                 requested tr1 = requested (tr ++ [Get (api_url s)]) ->
                 exists m : nat,
                   (m <= S fuel)%nat /\
                   requested tr1 =
                   requested tr ++
                   map (fun k : nat => api_url (set_page_number (page_number s + Z.of_nat k) s))
                       (seq 0 m)) as Hone.
      { intros tr1 ->. exists 1%nat. split; [lia |]. rewrite Hget. cbn. now rewrite <- Hhere. }
      destruct (String.eqb _ _); [now apply Hone |].
      destruct (json_loads _) as [data|e]; [| now apply Hone].
      destruct (for_items data stop s (tr ++ [Get (api_url s)])) as [[r s'] tr'] eqn:Hpage.
      apply for_items_frame in Hpage as [Hs Hreq].
      destruct r as [stop'|e]; [| now apply Hone].
      destruct stop'; [now apply Hone |].
      destruct (IH false (set_page_number (page_number s' + 1) s') tr') as (m & Hm & Hrest).
      exists (S m). split; [lia |]. rewrite Hrest, Hreq, Hget.
      rewrite <- app_assoc. f_equal. rewrite map_seq_S. cbn [app]. f_equal; [exact Hhere |].
      apply map_ext. intros k. rewrite Hs. unfold api_url.
      cbn [page_number set_page_number set_found_news base_api_url search_topic].
      now replace (page_number s + 1 + Z.of_nat k) with (page_number s + Z.of_nat (S k))
        by lia. }
  destruct (Hgen false s []) as (m & Hm & Hreq). exists m. split; [exact Hm | exact Hreq].
Qed.

(** X9.  An item of the topic search whose date does not read is not
    skipped: the exception leaves the loop over the items and the run,
    with the records found so far.  The date is read before [add_news]
    is called, so this is so also for an item that [add_news] would have
    skipped. *)
Theorem topic_date_failure_ends_run (item : Item) (e : exn) :
  parse_date (item !! "data") = Raise e ->
  forall (rest : list Item) (s : self) (tr : list event),
    (forall stop,
        for_items (item :: rest) stop s tr = (Raise e, s, tr ++ [Eval item])) /\
    forall fuel stop,
      String.eqb (requests_get (api_url s)) "[]" = false ->
      json_loads (requests_get (api_url s)) = Ok (item :: rest) ->
      while_loop (S fuel) stop s tr =
      Failed e s (tr ++ [Get (api_url s)] ++ [Eval item]).
Proof.
  intros Hdate rest s tr.
  assert (forall stop tr0,
             for_items (item :: rest) stop s tr0 = (Raise e, s, tr0 ++ [Eval item])) as Hpage
    by (intros stop tr0; cbn [for_items]; now rewrite Hdate).
  split; [intros stop; apply Hpage |].
  intros fuel stop Hnonempty Hjson. cbn [while_loop].
  now rewrite Hnonempty, Hjson, Hpage, <- app_assoc.
Qed.

(** X10.  Every record of a topic search, from no records on and however
    long the run, is what an item of the API deserializes to, and the date
    of that item, as [parse_date] reads it, lies in the closed range of the
    query. *)
Theorem topic_records_from_items_in_range (fuel : nat) (s : self) :
  Forall
    (fun n =>
       exists item d,
         deserialize_news item = Ok (Some n) /\
         parse_date (item !! "data") = Ok d /\
         start_date s <= d <= end_date s)
    (found_news (self_of (consume_api fuel (set_found_news [] s)))).
Proof.
  set (P := fun n : PublicoNews =>
              exists item d,
                deserialize_news item = Ok (Some n) /\
                parse_date (item !! "data") = Ok d /\
                start_date s <= d <= end_date s).
  pose proof (while_loop_inv (start_date s) (end_date s) (Forall P)) as Hinv.
  specialize (Hinv ltac:(intros n l it d Hl Hdes Hd Hr; apply insert_Forall;
                         [now exists it, d | exact Hl])).
  specialize (Hinv fuel (set_found_news [] s) []
                   ltac:(repeat split; constructor) ltac:(constructor)).
  cbv zeta in Hinv. now destruct Hinv as [(_ & _ & Hall) _].
Qed.

(** The records of a topic search, for a property that every insert keeps. *)
Lemma topic_found_news_inv (I : list PublicoNews -> Prop) :
  (forall n l, I l -> I (insert_if_absent n l)) ->
  forall fuel s, I (found_news s) -> I (found_news (self_of (consume_api fuel s))).
Proof.
  intros Hins fuel s Hinit.
  pose proof (while_loop_inv (start_date s) (end_date s) I) as Hinv.
  specialize (Hinv ltac:(intros n l it d Hl _ _ _; now apply Hins)).
  specialize (Hinv fuel s [] ltac:(repeat split; exact Hinit) ltac:(constructor)).
  cbv zeta in Hinv. now destruct Hinv as [(_ & _ & Hall) _].
Qed.

(** A page sets [stop_entire_search] only on an item older than the start
    of the range, the last one it evaluates. *)
Lemma for_items_stop (data : list Item) :
  forall s tr s' tr',
    for_items data false s tr = (Ok true, s', tr') ->
    exists tr0 item d,
      tr' = tr0 ++ [Eval item] /\
      parse_date (item !! "data") = Ok d /\ d < start_date s.
Proof.
  induction data as [|item rest IH]; intros s tr s' tr' Hrun.
  - discriminate Hrun.
  - cbn [for_items] in Hrun.
    destruct (parse_date (item !! "data")) as [d|e] eqn:Hd; [| discriminate Hrun].
    destruct (d <? start_date s) eqn:Hlt.
    + injection Hrun as <- <-. exists tr, item, d.
      split; [reflexivity |]. split; [exact Hd | now apply Z.ltb_lt].
    + destruct (d >? end_date s); [now apply IH in Hrun |].
      destruct (add_news s item) as [s1|e] eqn:Hadd; [| discriminate Hrun].
      apply add_news_frame in Hadd. apply IH in Hrun. now rewrite Hadd in Hrun.
Qed.

(** X11.  The two ways a topic search ends without an exception: on a
    page whose text is [[]], the last thing it requested, or on an item
    older than the start of the range, the last thing it evaluated.  Until
    then [page_number] counts the pages read. *)
Theorem topic_search_ends (fuel : nat) (s : self) :
  match consume_api fuel s with
  | Finished s' tr' =>
      (exists tr0,
          tr' = tr0 ++ [Get (api_url s')] /\ requests_get (api_url s') = "[]") \/
      (exists tr0 item d,
          tr' = tr0 ++ [Eval item] /\
          parse_date (item !! "data") = Ok d /\ d < start_date s)
  | Running s' _ => page_number s' = page_number s + Z.of_nat fuel
  | Failed _ _ _ => True
  end.
Proof.
  unfold consume_api.
  assert (forall s0 : self, start_date s0 = start_date s ->
          forall tr,
            match while_loop fuel false s0 tr with
            | Finished s' tr' =>
                (exists tr0,
                    tr' = tr0 ++ [Get (api_url s')] /\ requests_get (api_url s') = "[]") \/
                (exists tr0 item d,
                    tr' = tr0 ++ [Eval item] /\
                    parse_date (item !! "data") = Ok d /\ d < start_date s)
            | Running s' _ => page_number s' = page_number s0 + Z.of_nat fuel
            | Failed _ _ _ => True
            end) as Hgen; [| exact (Hgen s eq_refl [])].
  induction fuel as [|fuel IH]; intros s0 Hsd tr.
  - cbn. lia.
  - cbn [while_loop]. destruct (String.eqb _ _) eqn:Hempty.
    + left. exists tr. split; [reflexivity | now apply String.eqb_eq].
    + destruct (json_loads _) as [data|e]; [| exact Logic.I].
      destruct (for_items data false s0 (tr ++ [Get (api_url s0)])) as [[r s'] tr'] eqn:Hpage.
      destruct r as [stop|e]; [| exact Logic.I]. destruct stop.
      * right. apply for_items_stop in Hpage. now rewrite Hsd in Hpage.
      * apply for_items_frame in Hpage as [Hs _].
        specialize (IH (set_page_number (page_number s' + 1) s')
                       ltac:(rewrite Hs; exact Hsd) tr').
        destruct (while_loop fuel false _ tr'); [exact IH | exact Logic.I |].
        rewrite IH, Hs. cbn. lia.
Qed.

End Topic.

Section Keywords.
Import PublicoKeywordsSearch.
Context `{Env}.

Lemma kw_add_news_frame (s s1 : self) (data : Item) :
  add_news s data = Ok s1 -> s1 = set_found_news (found_news s1) s.
Proof.
  rewrite kw_add_news_insert. destruct (deserialize_news data) as [[n|]|e]; cbn [Py.bind];
    intros Heq; try discriminate Heq; injection Heq as <-.
  - reflexivity.
  - now rewrite kw_set_found_news_id.
Qed.

Variable J : list PublicoNews -> list event -> Prop.
Hypothesis J_event : forall l tr ev, J l tr -> J l (tr ++ [ev]).
Hypothesis J_insert :
  forall l tr item n,
    J l (tr ++ [Eval item]) -> deserialize_news item = Ok (Some n) ->
    J (insert_if_absent n l) (tr ++ [Eval item]).

(** A page of the keyword search keeps [J]; it changes nothing of [self]
    but [found_news] and requests no page. *)
Lemma kw_for_items_inv (data : list Item) :
  forall s tr r s' tr',
    J (found_news s) tr ->
    for_items data s tr = (r, s', tr') ->
    J (found_news s') tr' /\
    s' = set_found_news (found_news s') s /\ requested tr' = requested tr.
Proof.
  induction data as [|item rest IH]; intros s tr r s' tr' HJ Hrun.
  - injection Hrun as <- <- <-. now rewrite kw_set_found_news_id.
  - cbn [for_items] in Hrun.
    assert (requested (tr ++ [Eval item]) = requested tr) as Htr
      by (rewrite requested_app; cbn; apply app_nil_r).
    pose proof (J_event _ _ (Eval item) HJ) as HJ'.
    destruct (add_news s item) as [s1|e] eqn:Hadd.
    + pose proof (kw_add_news_frame _ _ _ Hadd) as Hframe.
      rewrite kw_add_news_insert in Hadd.
      destruct (deserialize_news item) as [[n|]|e] eqn:Hdes; cbn [Py.bind] in Hadd;
        [| | discriminate Hadd]; injection Hadd as Hs1.
      * apply IH in Hrun as (HJr & Hs & Hreq).
        -- split; [exact HJr |]. split; [| congruence]. rewrite Hs, Hframe. reflexivity.
        -- rewrite <- Hs1. cbn. now apply J_insert.
      * subst s1. apply IH in Hrun as (HJr & Hs & Hreq); [| exact HJ'].
        split; [exact HJr |]. split; [exact Hs | congruence].
    + injection Hrun as <- <- <-. split; [exact HJ' |].
      split; [now rewrite kw_set_found_news_id | exact Htr].
Qed.

Lemma kw_while_loop_inv (fuel : nat) :
  forall s tr,
    J (found_news s) tr ->
    J (found_news (self_of (while_loop fuel s tr))) (trace_of (while_loop fuel s tr)).
Proof.
  induction fuel as [|fuel IH]; intros s tr HJ.
  - exact HJ.
  - cbn [while_loop]. pose proof (J_event _ _ (Get (api_url s)) HJ) as HJ'.
    destruct (String.eqb _ _); [exact HJ' |].
    destruct (json_loads _) as [data|e]; [| exact HJ'].
    destruct (for_items data s (tr ++ [Get (api_url s)])) as [[r s'] tr'] eqn:Hpage.
    apply (kw_for_items_inv data _ _ _ _ _ HJ') in Hpage as (HJr & _ & _).
    destruct r as [u|e]; [| exact HJr]. apply IH. exact HJr.
Qed.

End Keywords.

Section Runs.
Context `{Env}.

(** X12.  Every record of a keyword search, from no records on and however
    long the run, is what an item that the run evaluated deserializes to. *)
Theorem keywords_records_from_items (fuel : nat) (s : PublicoKeywordsSearch.self) :
  Forall
    (fun n =>
       exists item,
         Eval item ∈ trace_of (PublicoKeywordsSearch.consume_api fuel
                                 (PublicoKeywordsSearch.set_found_news [] s)) /\
         deserialize_news item = Ok (Some n))
    (PublicoKeywordsSearch.found_news
       (self_of (PublicoKeywordsSearch.consume_api fuel
                   (PublicoKeywordsSearch.set_found_news [] s)))).
Proof.
  unfold PublicoKeywordsSearch.consume_api.
  apply (kw_while_loop_inv
           (fun l tr => Forall (fun n => exists item,
                                    Eval item ∈ tr /\ deserialize_news item = Ok (Some n)) l)).
  - intros l tr ev Hl. eapply Forall_impl; [exact Hl |].
    intros n (item & Hin & Hdes). exists item. split; [| exact Hdes].
    apply elem_of_app. now left.
  - intros l tr item n Hl Hdes. apply insert_Forall; [| exact Hl].
    exists item. split; [| exact Hdes]. apply elem_of_app. right. apply list_elem_of_here.
  - constructor.
Qed.

(** The records of a keyword search, for a property that every insert
    keeps. *)
Lemma keywords_found_news_inv (I : list PublicoNews -> Prop) :
  (forall n l, I l -> I (insert_if_absent n l)) ->
  forall fuel s,
    I (PublicoKeywordsSearch.found_news s) ->
    I (PublicoKeywordsSearch.found_news
         (self_of (PublicoKeywordsSearch.consume_api fuel s))).
Proof.
  intros Hins fuel s Hinit. unfold PublicoKeywordsSearch.consume_api.
  apply (kw_while_loop_inv (fun l _ => I l)); auto.
Qed.

(** X13.  The searches of the API keep the URLs of their records distinct:
    where no two records of [found_news] have one URL before a run of the
    topic search, a run of the keyword search or an [add_news] of the URL
    search, none have after, however the run ends. *)
Theorem urls_stay_distinct (fuel : nat)
  (st : PublicoTopicSearch.self) (sk : PublicoKeywordsSearch.self)
  (su : PublicoURLSearch.self) (url_ : string) :
  NoDup (map url (PublicoTopicSearch.found_news st)) ->
  NoDup (map url (PublicoKeywordsSearch.found_news sk)) ->
  NoDup (map url (PublicoURLSearch.found_news su)) ->
  NoDup (map url (PublicoTopicSearch.found_news
                    (self_of (PublicoTopicSearch.consume_api fuel st)))) /\
  NoDup (map url (PublicoKeywordsSearch.found_news
                    (self_of (PublicoKeywordsSearch.consume_api fuel sk)))) /\
  match PublicoURLSearch.add_news su url_ with
  | Ok su' => NoDup (map url (PublicoURLSearch.found_news su'))
  | Raise _ => True
  end.
Proof.
  intros Ht Hk Hu. split; [| split].
  - apply (topic_found_news_inv (fun l => NoDup (map url l))); [| exact Ht].
    intros n l. apply insert_NoDup.
  - apply (keywords_found_news_inv (fun l => NoDup (map url l))); [| exact Hk].
    intros n l. apply insert_NoDup.
  - rewrite url_add_news_insert. destruct (build_from_url url_) as [n|e]; cbn [Py.bind];
      [| exact Logic.I].
    now apply insert_NoDup.
Qed.

(** X14.  The searches of the API only append: the records [found_news]
    had before a run of the topic search, a run of the keyword search or
    an [add_news] of the URL search are still there after, in front and in
    their order; [add_news] adds at most one. *)
Theorem consume_api_appends (fuel : nat)
  (st : PublicoTopicSearch.self) (sk : PublicoKeywordsSearch.self)
  (su : PublicoURLSearch.self) (url_ : string) :
  (exists added,
      PublicoTopicSearch.found_news (self_of (PublicoTopicSearch.consume_api fuel st)) =
      PublicoTopicSearch.found_news st ++ added) /\
  (exists added,
      PublicoKeywordsSearch.found_news
        (self_of (PublicoKeywordsSearch.consume_api fuel sk)) =
      PublicoKeywordsSearch.found_news sk ++ added) /\
  match PublicoURLSearch.add_news su url_ with
  | Ok su' =>
      exists added,
        PublicoURLSearch.found_news su' = PublicoURLSearch.found_news su ++ added /\
        (length added <= 1)%nat
  | Raise _ => True
  end.
Proof.
  assert (forall l0 n l, (exists added : list PublicoNews, l = l0 ++ added) ->
                         exists added, insert_if_absent n l = l0 ++ added) as Hins.
  { intros l0 n l (added & ->). destruct (insert_appends n (l0 ++ added)) as (more & ->).
    exists (added ++ more). now rewrite app_assoc. }
  split; [| split].
  - apply (topic_found_news_inv
             (fun l => exists added, l = PublicoTopicSearch.found_news st ++ added)).
    + apply Hins.
    + exists []. now rewrite app_nil_r.
  - apply (keywords_found_news_inv
             (fun l => exists added, l = PublicoKeywordsSearch.found_news sk ++ added)).
    + apply Hins.
    + exists []. now rewrite app_nil_r.
  - rewrite url_add_news_insert. destruct (build_from_url url_) as [n|e]; cbn [Py.bind];
      [| exact Logic.I].
    unfold insert_if_absent. destruct (negb _).
    + exists [n]. split; [reflexivity | cbn; lia].
    + exists []. split; [now rewrite app_nil_r | cbn; lia].
Qed.

(** X15.  The keyword search has no early stop: a run that ends without
    an exception ends on a page whose text is [[]], the last thing it
    requested.  Until then [page_number] counts the pages read. *)
Theorem keywords_search_ends (fuel : nat) (s : PublicoKeywordsSearch.self) :
  match PublicoKeywordsSearch.consume_api fuel s with
  | Finished s' tr' =>
      requests_get (PublicoKeywordsSearch.api_url s') = "[]" /\
      exists tr0, tr' = tr0 ++ [Get (PublicoKeywordsSearch.api_url s')]
  | Running s' _ =>
      PublicoKeywordsSearch.page_number s' =
      PublicoKeywordsSearch.page_number s + Z.of_nat fuel
  | Failed _ _ _ => True
  end.
Proof.
  unfold PublicoKeywordsSearch.consume_api.
  assert (forall s tr,
             match PublicoKeywordsSearch.while_loop fuel s tr with
             | Finished s' tr' =>
                 requests_get (PublicoKeywordsSearch.api_url s') = "[]" /\
                 exists tr0, tr' = tr0 ++ [Get (PublicoKeywordsSearch.api_url s')]
             | Running s' _ =>
                 PublicoKeywordsSearch.page_number s' =
                 PublicoKeywordsSearch.page_number s + Z.of_nat fuel
             | Failed _ _ _ => True
             end) as Hgen; [| exact (Hgen s [])].
  clear s. induction fuel as [|fuel IH]; intros s tr.
  - cbn. lia.
  - cbn [PublicoKeywordsSearch.while_loop]. destruct (String.eqb _ _) eqn:Hempty.
    + split; [now apply String.eqb_eq | now exists tr].
    + destruct (json_loads _) as [data|e]; [| exact Logic.I].
      destruct (PublicoKeywordsSearch.for_items data s _) as [[r s'] tr'] eqn:Hpage.
      apply (kw_for_items_inv (fun _ _ => True)) in Hpage as (_ & Hs & _); auto.
      destruct r as [u|e]; [| exact Logic.I].
      specialize (IH (PublicoKeywordsSearch.set_page_number
                        (PublicoKeywordsSearch.page_number s' + 1) s') tr').
      destruct (PublicoKeywordsSearch.while_loop fuel _ tr'); [exact IH | exact Logic.I |].
      rewrite IH, Hs. cbn. lia.
Qed.

(** X19.  The pages of the keyword search are requested one after the other,
    from [page_number] on, none left out and none made twice. *)
Theorem keywords_pages_in_order (fuel : nat) (s : PublicoKeywordsSearch.self) :
  exists m : nat,
    (m <= fuel)%nat /\
    requested (trace_of (PublicoKeywordsSearch.consume_api fuel s)) =
    map (fun k : nat =>
           PublicoKeywordsSearch.api_url
             (PublicoKeywordsSearch.set_page_number
                (PublicoKeywordsSearch.page_number s + Z.of_nat k) s))
        (seq 0 m).
Proof.
  unfold PublicoKeywordsSearch.consume_api.
  assert (forall s tr,
             exists m : nat,
               (m <= fuel)%nat /\
               requested (trace_of (PublicoKeywordsSearch.while_loop fuel s tr)) =
               requested tr ++
               map (fun k : nat =>
                      PublicoKeywordsSearch.api_url
                        (PublicoKeywordsSearch.set_page_number
                           (PublicoKeywordsSearch.page_number s + Z.of_nat k) s))
                   (seq 0 m)) as Hgen.
  { clear s. induction fuel as [|fuel IH]; intros s tr.
    - exists 0%nat. cbn. split; [lia | now rewrite app_nil_r].
    - cbn [PublicoKeywordsSearch.while_loop].
      set (here := PublicoKeywordsSearch.api_url s).
      assert (here = PublicoKeywordsSearch.api_url
                       (PublicoKeywordsSearch.set_page_number
                          (PublicoKeywordsSearch.page_number s + Z.of_nat 0) s)) as Hhere
        by (unfold here, PublicoKeywordsSearch.api_url; cbn; now rewrite Z.add_0_r).
      assert (requested (tr ++ [Get here]) = requested tr ++ [here]) as Hget
        by (now rewrite requested_app).
      assert (forall tr1,
                 requested tr1 = requested (tr ++ [Get here]) ->
                 exists m : nat,
                   (m <= S fuel)%nat /\
                   requested tr1 =
                   requested tr ++
                   map (fun k : nat =>
                          PublicoKeywordsSearch.api_url
                            (PublicoKeywordsSearch.set_page_number
                               (PublicoKeywordsSearch.page_number s + Z.of_nat k) s))
                       (seq 0 m)) as Hone.
      { intros tr1 ->. exists 1%nat. split; [lia |]. rewrite Hget. cbn. now rewrite <- Hhere. }
      destruct (String.eqb _ _); [now apply Hone |].
      destruct (json_loads _) as [data|e]; [| now apply Hone].
      destruct (PublicoKeywordsSearch.for_items data s (tr ++ [Get here]))
        as [[r s'] tr'] eqn:Hpage.
      apply (kw_for_items_inv (fun _ _ => True)) in Hpage as (_ & Hs & Hreq); auto.
      destruct r as [u|e]; [| now apply Hone].
      destruct (IH (PublicoKeywordsSearch.set_page_number
                      (PublicoKeywordsSearch.page_number s' + 1) s') tr')
        as (m & Hm & Hrest).
      exists (S m). split; [lia |]. rewrite Hrest, Hreq, Hget.
      rewrite <- app_assoc. f_equal. rewrite map_seq_S. cbn [app]. f_equal; [exact Hhere |].
      apply map_ext. intros k. rewrite Hs. unfold PublicoKeywordsSearch.api_url.
      cbn [PublicoKeywordsSearch.page_number PublicoKeywordsSearch.set_page_number
           PublicoKeywordsSearch.set_found_news PublicoKeywordsSearch.base_api_url
           PublicoKeywordsSearch.keywords PublicoKeywordsSearch.start_date
           PublicoKeywordsSearch.end_date].
      now replace (PublicoKeywordsSearch.page_number s + 1 + Z.of_nat k)
        with (PublicoKeywordsSearch.page_number s + Z.of_nat (S k)) by lia. }
  destruct (Hgen s []) as (m & Hm & Hreq). exists m. split; [exact Hm | exact Hreq].
Qed.

End Runs.

End PublicoMore.

(** ** The validators, continued *)

Module DecoratorsMore.
Import Py Decorators DecoratorsFacts.

Section Decorated.
Context `{Env}.
Context {W A : Type} (f : W -> res A * W).

Lemma invalid_index_from_sorted (valid_url : list bool) (i : Z) :
  StronglySorted Z.lt (invalid_index_from i valid_url) /\
  Forall (fun k => i <= k < i + Z.of_nat (length valid_url))
         (invalid_index_from i valid_url).
Proof.
  revert i. induction valid_url as [|v rest IH]; intros i.
  - cbn. split; constructor.
  - cbn [invalid_index_from length]. destruct (IH (i + 1)) as [Hsorted Hbound].
    assert (Forall (fun k => i <= k < i + Z.of_nat (S (length rest)))
                   (invalid_index_from (i + 1) rest)) as Hwider
      by (eapply Forall_impl; [exact Hbound |]; cbn beta; intros k Hk; lia).
    destruct v; cbn [negb]; [now split |]. split.
    + constructor; [exact Hsorted |].
      eapply Forall_impl; [exact Hbound |]. cbn beta. intros k Hk. lia.
    + constructor; [lia | exact Hwider].
Qed.

(** X16.  The positions that the message of [validate_urls] prints are in
    strictly ascending order, so none is printed twice, and each is a
    position of the batch, counted from 0. *)
Theorem offending_positions_ascending (request : gmap string jval) :
  let data := to_list (request !! "url") in
  let offending := invalid_index_from 0 (map validate_url data) in
  StronglySorted Z.lt offending /\
  Forall (fun k => 0 <= k < Z.of_nat (length data)) offending.
Proof.
  intros data offending.
  destruct (invalid_index_from_sorted (map validate_url data) 0) as [Hsorted Hbound].
  split; [exact Hsorted |].
  eapply Forall_impl; [exact Hbound |]. cbn beta. intros k.
  now rewrite length_map, Z.add_0_l.
Qed.

(** X17.  [validate_urls] never makes more than 50 shape checks, and the
    checks it makes are those of the URLs of the batch, each once and in
    the order of the batch. *)
Theorem validate_urls_checks (request : gmap string jval) (w : W) :
  let checks := fst (validate_urls f request w) in
  (length checks <= 50)%nat /\
  (checks = [] \/ checks = map ValidateUrl (to_list (request !! "url"))).
Proof.
  cbv zeta. unfold validate_urls.
  destruct (Z.gtb_spec (Z.of_nat (length (to_list (request !! "url")))) 50) as [Hgt|Hle].
  - cbn. split; [lia | now left].
  - destruct (negb _); cbn [fst]; (split; [rewrite length_map; lia | now right]).
Qed.

(** X18.  The messages of [validate_dates] when both dates read.  The two
    RequestErrors of the range are raised inside the [try] whose handler
    catches ValueError: they reach the caller with their own message
    exactly when RequestError is not a ValueError, and with the message
    for the format of the date when it is. *)
Theorem validate_dates_messages (request : gmap string jval) (w : W) (s e : Z) :
  datetime_from_string (request !! "start_date") = Ok s ->
  datetime_from_string (request !! "end_date") = Ok e ->
  (number_of_months_between_2_dates (datetime_date s) (datetime_date e) < 0 ->
   validate_dates f request w =
   (Raise (RequestError (if RequestError_is_ValueError then invalid_format
                         else start_after_end)), w)) /\
  (number_of_months_between_2_dates (datetime_date s) (datetime_date e) > 3 ->
   validate_dates f request w =
   (Raise (RequestError (if RequestError_is_ValueError then invalid_format
                         else range_too_big)), w)).
Proof.
  intros Hs He. unfold validate_dates, check_dates. rewrite Hs, He. split.
  - intros Hneg. apply Z.ltb_lt in Hneg. rewrite Hneg.
    unfold raise_in_try, is_ValueError. now destruct RequestError_is_ValueError.
  - intros Hbig.
    destruct (Z.ltb_spec (number_of_months_between_2_dates (datetime_date s) (datetime_date e)) 0);
      [lia |].
    apply Z.gtb_gt in Hbig. rewrite Hbig.
    unfold raise_in_try, is_ValueError. now destruct RequestError_is_ValueError.
Qed.

End Decorated.
End DecoratorsMore.

(** ** The further properties on the sample worlds *)

Module MoreRuns.
Import Py Samples.

(** The denylisted article of the sample site, with neither date nor lead. *)
Lemma denylisted_article_witness :
  CM.span_dateTime art_video = [] /\
  @CM.article_news cm_env (cm_search "one") art_video = Ok None.
Proof.
  split; [reflexivity |].
  refine (proj1 (@CMMore.denylisted_article_skipped cm_env art_video
                   (anchor "/multimedia/videos/detalhe/v?ref=Mais")
                   "/multimedia/videos/detalhe/v?ref=Mais"
                   "https://www.cmjornal.pt/multimedia/videos/detalhe/v"
                   _ _ _ _ (cm_search "one"))).
  - reflexivity.
  - vm_compute. reflexivity.
  - vm_compute. reflexivity.
  - vm_compute. reflexivity.
Defined.

(** The article of December on the sample site, in a search for January. *)
Lemma out_of_range_article_witness :
  @CM.for_articles cm_env ([] ++ art_old :: [art_a]) (cm_search "mixed") =
  @CM.for_articles cm_env ([] ++ [art_a]) (cm_search "mixed").
Proof.
  refine (proj2 (@CMMore.out_of_range_article_skipped cm_env art_old
                   (anchor "/sociedade/detalhe/old") (span "01/12/2020|")
                   "/sociedade/detalhe/old"
                   "https://www.cmjornal.pt/sociedade/detalhe/old"
                   "01/12/2020|" (midnight 737760)
                   _ _ _ _ _ _ _ (cm_search "mixed") _) [] [art_a]).
  - reflexivity.
  - vm_compute. reflexivity.
  - vm_compute. reflexivity.
  - vm_compute. reflexivity.
  - reflexivity.
  - reflexivity.
  - vm_compute. reflexivity.
  - left. vm_compute. discriminate.
Defined.

(** An item of the sample API whose date does not read. *)
Lemma topic_date_failure_witness :
  @Publico.PublicoTopicSearch.for_items pub_env [pub_item_baddate] false pub_topic [] =
  (Raise ValueError, pub_topic, [Publico.Eval pub_item_baddate]).
Proof.
  refine (proj1 (@PublicoMore.topic_date_failure_ends_run pub_env pub_item_baddate
                   ValueError _ [] pub_topic []) false).
  vm_compute. reflexivity.
Defined.

(** The three fresh searches of the sample API. *)
Lemma urls_stay_distinct_witness :
  NoDup (map Publico.url
           (Publico.PublicoTopicSearch.found_news
              (Publico.self_of
                 (@Publico.PublicoTopicSearch.consume_api pub_env 5 pub_topic)))) /\
  NoDup (map Publico.url
           (Publico.PublicoKeywordsSearch.found_news
              (Publico.self_of
                 (@Publico.PublicoKeywordsSearch.consume_api pub_env 5 pub_keywords)))).
Proof.
  pose proof (@PublicoMore.urls_stay_distinct pub_env 5 pub_topic pub_keywords
                Publico.PublicoURLSearch.init "https://www.publico.pt/a"
                NoDup_nil_2 NoDup_nil_2 NoDup_nil_2) as (Ht & Hk & _).
  split; [exact Ht | exact Hk].
Defined.

(** A request whose dates are the wrong way round. *)
Lemma validate_dates_messages_witness :
  @Decorators.validate_dates dec_env nat nat counting_view
    (request_dates "31/01/2021" "01/01/2021") 0%nat =
  (Raise (RequestError Decorators.start_after_end), 0%nat).
Proof.
  refine (proj1 (@DecoratorsMore.validate_dates_messages dec_env nat nat counting_view
                   (request_dates "31/01/2021" "01/01/2021") 0%nat
                   (midnight 737821) (midnight 737791) _ _) _).
  - vm_compute. reflexivity.
  - vm_compute. reflexivity.
  - vm_compute. reflexivity.
Defined.

End MoreRuns.
